(** * Empower1 CLI wallet: canonical hashing, multi-signature signing,
      group-identifier derivation, the multi-signature configuration file and
      commands, and DID generation (src/cli-wallet/transaction.py,
      src/cli-wallet/multisig.py, src/cli-wallet/main.py and
      src/cli-wallet/did_utils.py), shallow embedding and proofs. *)

From Stdlib Require Import ZArith.
From stdpp Require Import base list sorting strings.

Local Open Scope Z_scope.

(* ================================================================== *)
(** ** Python [bytes] *)

(** A Python [bytes] object: a list of 8-bit values. *)
Definition bytes := list Byte.byte.

Definition byte_val (b : Byte.byte) : Z := Z.of_N (Byte.to_N b).

(** Storing an integer into an [unsigned char] (truncation to 8 bits). *)
Definition byte_of_Z (z : Z) : Byte.byte :=
  match Byte.of_N (Z.to_N (z mod 256)) with
  | Some b => b
  | None => Byte.x00
  end.

(** [bytes([m])] for [0 <= m < 256]. *)
Definition py_bytes_1 (m : Z) : bytes := [byte_of_Z m].

Definition ascii_val (c : Ascii.ascii) : Z := Z.of_nat (Ascii.nat_of_ascii c).

Definition ascii_of_Z (z : Z) : Ascii.ascii := Ascii.ascii_of_nat (Z.to_nat z).

(* ================================================================== *)
(** ** [bytes.hex()] / [hashlib.sha256().hexdigest()] and [bytes.fromhex] *)

(** Lower-case hexadecimal digit of a nibble. *)
Definition hex_digit (n : Z) : Ascii.ascii :=
  ascii_of_Z (if n <? 10 then 48 + n else 87 + n).

Definition hex_of_byte (b : Byte.byte) : string :=
  String.String (hex_digit (byte_val b / 16))
    (String.String (hex_digit (byte_val b mod 16)) String.EmptyString).

(** [bytes.hex()], also the text produced by [hexdigest()]. *)
Fixpoint bytes_hex (bs : bytes) : string :=
  match bs with
  | [] => String.EmptyString
  | b :: bs' => String.append (hex_of_byte b) (bytes_hex bs')
  end.

(** Value of a hexadecimal digit, either case (CPython [_PyLong_DigitValue]). *)
Definition hex_value (c : Ascii.ascii) : option Z :=
  let n := ascii_val c in
  if (48 <=? n) && (n <=? 57) then Some (n - 48)
  else if (97 <=? n) && (n <=? 102) then Some (n - 87)
  else if (65 <=? n) && (n <=? 70) then Some (n - 55)
  else None.

(** [Py_ISSPACE]: space, tab, newline, vertical tab, form feed, return. *)
Definition py_isspace (c : Ascii.ascii) : bool :=
  let n := ascii_val c in (n =? 32) || ((9 <=? n) && (n <=? 13)).

(** [bytes.fromhex(s)]: ASCII whitespace between byte pairs is skipped; any
    other character, or an odd number of digits, raises [ValueError]
    (modelled as [None]). *)
Fixpoint fromhex (s : string) : option bytes :=
  match s with
  | String.EmptyString => Some []
  | String.String c s' =>
      if py_isspace c then fromhex s'
      else match s' with
           | String.EmptyString => None
           | String.String c2 s'' =>
               match hex_value c, hex_value c2 with
               | Some hi, Some lo =>
                   match fromhex s'' with
                   | Some bs => Some (byte_of_Z (16 * hi + lo) :: bs)
                   | None => None
                   end
               | _, _ => None
               end
           end
  end.

(* ================================================================== *)
(** ** [base64.b64encode] / [base64.b64decode] (standard alphabet) *)

Definition b64_char (v : Z) : Ascii.ascii :=
  ascii_of_Z (if v <? 26 then 65 + v
              else if v <? 52 then 71 + v
              else if v <? 62 then v - 4
              else if v =? 62 then 43 else 47).

(** [table_a2b_base64]: [None] for characters outside the alphabet. *)
Definition b64_index (c : Ascii.ascii) : option Z :=
  let n := ascii_val c in
  if (65 <=? n) && (n <=? 90) then Some (n - 65)
  else if (97 <=? n) && (n <=? 122) then Some (n - 71)
  else if (48 <=? n) && (n <=? 57) then Some (n + 4)
  else if n =? 43 then Some 62
  else if n =? 47 then Some 63
  else None.

Definition pad_char : Ascii.ascii := Ascii.ascii_of_nat 61.

(** [base64.b64encode(bs).decode('utf-8')]: every 3 bytes become 4
    characters; a final group of 1 or 2 bytes is padded with [=]. *)
Fixpoint b64encode (bs : bytes) : string :=
  match bs with
  | a :: b :: c :: rest =>
      let va := byte_val a in let vb := byte_val b in let vc := byte_val c in
      String.String (b64_char (va / 4))
        (String.String (b64_char ((va mod 4) * 16 + vb / 16))
          (String.String (b64_char ((vb mod 16) * 4 + vc / 64))
            (String.String (b64_char (vc mod 64)) (b64encode rest))))
  | [a; b] =>
      let va := byte_val a in let vb := byte_val b in
      String.String (b64_char (va / 4))
        (String.String (b64_char ((va mod 4) * 16 + vb / 16))
          (String.String (b64_char ((vb mod 16) * 4))
            (String.String pad_char String.EmptyString)))
  | [a] =>
      let va := byte_val a in
      String.String (b64_char (va / 4))
        (String.String (b64_char ((va mod 4) * 16))
          (String.String pad_char (String.String pad_char String.EmptyString)))
  | [] => String.EmptyString
  end.

(** CPython [binascii.a2b_base64] in its default (non-strict) mode:
    characters outside the alphabet are skipped, a pad character ends the
    data once the quad has at least two characters and is complete, and a
    trailing incomplete quad raises [binascii.Error] ([None]). *)
Fixpoint a2b_base64_go (s : string) (quad_pos pads : nat) (leftchar : Z)
    (acc : list Byte.byte) : option bytes :=
  match s with
  | String.EmptyString =>
      if Nat.eqb quad_pos 0 then Some (rev acc) else None
  | String.String c s' =>
      if Ascii.eqb c pad_char then
        if Nat.leb 2 quad_pos then
          if Nat.leb 4 (quad_pos + S pads) then Some (rev acc)
          else a2b_base64_go s' quad_pos (S pads) leftchar acc
        else a2b_base64_go s' quad_pos pads leftchar acc
      else
        match b64_index c with
        | None => a2b_base64_go s' quad_pos pads leftchar acc
        | Some v =>
            match quad_pos with
            | O => a2b_base64_go s' 1 0 v acc
            | 1%nat => a2b_base64_go s' 2 0 (v mod 16)
                         (byte_of_Z (leftchar * 4 + v / 16) :: acc)
            | 2%nat => a2b_base64_go s' 3 0 (v mod 4)
                         (byte_of_Z (leftchar * 16 + v / 4) :: acc)
            | _ => a2b_base64_go s' 0 0 0
                     (byte_of_Z (leftchar * 64 + v) :: acc)
            end
        end
  end.

Fixpoint ascii_only (s : string) : bool :=
  match s with
  | String.EmptyString => true
  | String.String c s' => (ascii_val c <? 128) && ascii_only s'
  end.

(** [base64.b64decode(s)] for a [str] argument: a non-ASCII string raises
    [ValueError]; otherwise [binascii.a2b_base64]. *)
Definition b64decode (s : string) : option bytes :=
  if ascii_only s then a2b_base64_go s 0 0 0 [] else None.


(* ================================================================== *)
(** ** [sorted], [set] and string helpers *)

(** [sorted(xs)] on strings: code-point lexicographic order.  CPython's
    sort is a stable merge sort, as is stdpp's [merge_sort]. *)
Definition py_sorted (l : list string) : list string := merge_sort String.le l.

(** [list(set(xs))]: duplicates dropped.  The order of a Python set is
    unspecified; every use in the code sorts the result afterwards. *)
Definition py_set_list (l : list string) : list string := remove_dups l.

(** [x in xs] on a list of strings. *)
Definition py_in (x : string) (l : list string) : bool :=
  existsb (fun y => String.eqb y x) l.

Definition str_of_ascii (c : Ascii.ascii) : string :=
  String.String c String.EmptyString.

Fixpoint str_concat (sep : string) (l : list string) : string :=
  match l with
  | [] => String.EmptyString
  | [x] => x
  | x :: l' => String.append x (String.append sep (str_concat sep l'))
  end.

(* ================================================================== *)
(** ** [json.dumps(payload, sort_keys=True, separators=(',', ':'))] *)

(** The JSON values that occur in the hashing payload. *)
Inductive jvalue :=
  | JInt (z : Z)
  | JStr (s : string)
  | JStrList (l : list string).

(** [py_encode_basestring_ascii] ([ensure_ascii=True]): backslash, quote and
    the five named control characters get two-character escapes; every
    other character outside [' '..'~'] becomes [\u00XX]. *)
Definition json_escape_char (c : Ascii.ascii) : string :=
  let n := ascii_val c in
  let bs := str_of_ascii (ascii_of_Z 92) in
  if n =? 92 then String.append bs bs
  else if n =? 34 then String.append bs (str_of_ascii c)
  else if n =? 8 then String.append bs "b"
  else if n =? 12 then String.append bs "f"
  else if n =? 10 then String.append bs "n"
  else if n =? 13 then String.append bs "r"
  else if n =? 9 then String.append bs "t"
  else if (32 <=? n) && (n <=? 126) then str_of_ascii c
  else String.append bs
         (String.append "u00"
            (String.String (hex_digit (n / 16))
               (str_of_ascii (hex_digit (n mod 16))))).

Fixpoint json_escape (s : string) : string :=
  match s with
  | String.EmptyString => String.EmptyString
  | String.String c s' => String.append (json_escape_char c) (json_escape s')
  end.

Definition json_quote (s : string) : string :=
  let q := str_of_ascii (ascii_of_Z 34) in
  String.append q (String.append (json_escape s) q).

Definition dec_digit (n : N) : Ascii.ascii := Ascii.ascii_of_N (48 + n).

Fixpoint N_dec_go (fuel : nat) (n : N) (acc : string) : string :=
  match fuel with
  | O => acc
  | S f =>
      let acc' := String.String (dec_digit (n mod 10)) acc in
      if (n <? 10)%N then acc' else N_dec_go f (n / 10) acc'
  end.

(** [repr] of a Python [int]: decimal, with a leading minus sign. *)
Definition Z_dec (z : Z) : string :=
  match z with
  | Z0 => "0"
  | Zpos p => N_dec_go (S (N.size_nat (Npos p))) (Npos p) String.EmptyString
  | Zneg p => String.append "-"
                (N_dec_go (S (N.size_nat (Npos p))) (Npos p) String.EmptyString)
  end.

Definition json_value (v : jvalue) : string :=
  match v with
  | JInt z => Z_dec z
  | JStr s => json_quote s
  | JStrList l => String.append "[" (String.append (str_concat "," (map json_quote l)) "]")
  end.

Definition item_key_le (p q : string * jvalue) : Prop := String.le p.1 q.1.

#[global] Instance item_key_le_dec : RelDecision item_key_le :=
  fun p q => String.le_dec p.1 q.1.

(** A Python dict with distinct keys, dumped with [sort_keys=True] and the
    compact separators. *)
Definition json_dumps_sorted (d : list (string * jvalue)) : string :=
  String.append "{"
    (String.append
       (str_concat ","
          (map (fun kv => String.append (json_quote kv.1)
                            (String.append ":" (json_value kv.2)))
               (merge_sort item_key_le d)))
       "}").

(* ================================================================== *)
(** ** [SignerInfo] and [Transaction] *)

Definition TX_STANDARD : string := "standard".
Definition TX_CONTRACT_DEPLOY : string := "contract_deployment".
Definition TX_CONTRACT_CALL : string := "contract_call".

Module SignerInfo.
Record t := mk {
    public_key_hex : string;
    signature_hex : string
  }.
End SignerInfo.

(** The attributes of a [Transaction] object; [None] is Python's [None]. *)
Record Transaction := mkTransaction {
  id_hex : option string;
  timestamp : Z;
  from_address_hex : string;
  public_key_hex : option string;
  signature_hex : option string;
  tx_type : string;
  to_address_hex : option string;
  amount : Z;
  fee : Z;
  contract_code_bytes : option bytes;
  target_contract_address_hex : option string;
  function_name : option string;
  arguments_bytes : option bytes;
  required_signatures : Z;
  authorized_public_keys_hex : list string;
  signers : list SignerInfo.t
}.

(** Python truthiness of an optional [str] / [bytes] / [list]. *)
Definition truthy_str (o : option string) : bool :=
  match o with Some s => negb (String.eqb s "") | None => false end.

Definition truthy_bytes (o : option bytes) : bool :=
  match o with Some (_ :: _) => true | _ => false end.

Definition truthy_list {A} (o : option (list A)) : bool :=
  match o with Some (_ :: _) => true | _ => false end.

(** [Transaction.__init__]: no argument is checked; [now_ns] is the value of
    [int(time.time() * 1_000_000_000)] read when [timestamp] is [None]. *)
Definition Transaction_init (now_ns : Z) (from_address_hex0 : string)
    (timestamp0 : option Z) (to_address_hex0 : option string) (amount0 fee0 : Z)
    (contract_code_bytes0 : option bytes) (target_contract_address_hex0 : option string)
    (function_name0 : option string) (arguments_bytes0 : option bytes)
    (public_key_hex0 signature_hex0 : option string) (required_signatures0 : Z)
    (authorized_public_keys_hex0 : option (list string))
    (signers0 : option (list SignerInfo.t)) (tx_type0 : string)
    (tx_id_hex0 : option string) : Transaction :=
  {| id_hex := tx_id_hex0;
     timestamp := match timestamp0 with Some t => t | None => now_ns end;
     from_address_hex := from_address_hex0;
     public_key_hex := public_key_hex0;
     signature_hex := signature_hex0;
     tx_type := tx_type0;
     to_address_hex := to_address_hex0;
     amount := amount0;
     fee := fee0;
     contract_code_bytes := contract_code_bytes0;
     target_contract_address_hex := target_contract_address_hex0;
     function_name := function_name0;
     arguments_bytes := arguments_bytes0;
     required_signatures := required_signatures0;
     authorized_public_keys_hex :=
       match authorized_public_keys_hex0 with
       | Some ((_ :: _) as ks) => py_sorted (py_set_list ks)
       | _ => []
       end;
     signers := match signers0 with Some ((_ :: _) as ss) => ss | _ => [] end |}.

Definition set_public_key_hex (v : option string) (tx : Transaction) : Transaction :=
  {| id_hex := id_hex tx; timestamp := timestamp tx; from_address_hex := from_address_hex tx;
     public_key_hex := v; signature_hex := signature_hex tx;
     tx_type := tx_type tx; to_address_hex := to_address_hex tx; amount := amount tx;
     fee := fee tx; contract_code_bytes := contract_code_bytes tx;
     target_contract_address_hex := target_contract_address_hex tx;
     function_name := function_name tx; arguments_bytes := arguments_bytes tx;
     required_signatures := required_signatures tx;
     authorized_public_keys_hex := authorized_public_keys_hex tx; signers := signers tx |}.

Definition set_signature_hex (v : option string) (tx : Transaction) : Transaction :=
  {| id_hex := id_hex tx; timestamp := timestamp tx; from_address_hex := from_address_hex tx;
     public_key_hex := public_key_hex tx; signature_hex := v;
     tx_type := tx_type tx; to_address_hex := to_address_hex tx; amount := amount tx;
     fee := fee tx; contract_code_bytes := contract_code_bytes tx;
     target_contract_address_hex := target_contract_address_hex tx;
     function_name := function_name tx; arguments_bytes := arguments_bytes tx;
     required_signatures := required_signatures tx;
     authorized_public_keys_hex := authorized_public_keys_hex tx; signers := signers tx |}.

Definition set_from_address_hex (v : string) (tx : Transaction) : Transaction :=
  {| id_hex := id_hex tx; timestamp := timestamp tx; from_address_hex := v;
     public_key_hex := public_key_hex tx; signature_hex := signature_hex tx;
     tx_type := tx_type tx; to_address_hex := to_address_hex tx; amount := amount tx;
     fee := fee tx; contract_code_bytes := contract_code_bytes tx;
     target_contract_address_hex := target_contract_address_hex tx;
     function_name := function_name tx; arguments_bytes := arguments_bytes tx;
     required_signatures := required_signatures tx;
     authorized_public_keys_hex := authorized_public_keys_hex tx; signers := signers tx |}.

Definition set_id_hex (v : option string) (tx : Transaction) : Transaction :=
  {| id_hex := v; timestamp := timestamp tx; from_address_hex := from_address_hex tx;
     public_key_hex := public_key_hex tx; signature_hex := signature_hex tx;
     tx_type := tx_type tx; to_address_hex := to_address_hex tx; amount := amount tx;
     fee := fee tx; contract_code_bytes := contract_code_bytes tx;
     target_contract_address_hex := target_contract_address_hex tx;
     function_name := function_name tx; arguments_bytes := arguments_bytes tx;
     required_signatures := required_signatures tx;
     authorized_public_keys_hex := authorized_public_keys_hex tx; signers := signers tx |}.

Definition set_signers (v : list SignerInfo.t) (tx : Transaction) : Transaction :=
  {| id_hex := id_hex tx; timestamp := timestamp tx; from_address_hex := from_address_hex tx;
     public_key_hex := public_key_hex tx; signature_hex := signature_hex tx;
     tx_type := tx_type tx; to_address_hex := to_address_hex tx; amount := amount tx;
     fee := fee tx; contract_code_bytes := contract_code_bytes tx;
     target_contract_address_hex := target_contract_address_hex tx;
     function_name := function_name tx; arguments_bytes := arguments_bytes tx;
     required_signatures := required_signatures tx;
     authorized_public_keys_hex := authorized_public_keys_hex tx; signers := v |}.

(* ================================================================== *)
(** ** [Transaction.data_for_hashing] *)

Definition opt_field (k : string) (o : option string) : list (string * jvalue) :=
  match o with Some s => [(k, JStr s)] | None => [] end.

Definition opt_b64_field (k : string) (o : option bytes) : list (string * jvalue) :=
  match o with Some b => [(k, JStr (b64encode b))] | None => [] end.

(** The dict [payload_to_hash], as its list of entries. *)
Definition payload_to_hash (tx : Transaction) : list (string * jvalue) :=
  [("Fee", JInt (fee tx)); ("From", JStr (from_address_hex tx));
   ("Timestamp", JInt (timestamp tx)); ("TxType", JStr (tx_type tx))]
  ++ (match public_key_hex tx with
      | Some pk => if truthy_str (Some pk) && (required_signatures tx =? 0)
                   then [("PublicKey", JStr pk)] else []
      | None => []
      end)
  ++ (if String.eqb (tx_type tx) TX_STANDARD then
        opt_field "To" (to_address_hex tx) ++ [("Amount", JInt (amount tx))]
      else if String.eqb (tx_type tx) TX_CONTRACT_DEPLOY then
        opt_b64_field "ContractCode" (contract_code_bytes tx) ++ [("Amount", JInt (amount tx))]
      else if String.eqb (tx_type tx) TX_CONTRACT_CALL then
        opt_field "TargetContractAddress" (target_contract_address_hex tx)
        ++ opt_field "FunctionName" (function_name tx)
        ++ opt_b64_field "Arguments" (arguments_bytes tx)
        ++ [("Amount", JInt (amount tx))]
      else [])
  ++ (if (0 <? required_signatures tx) && (0 <? Z.of_nat (length (authorized_public_keys_hex tx)))
      then [("RequiredSignatures", JInt (required_signatures tx));
            ("AuthorizedPublicKeys",
              JStrList (py_sorted (py_set_list (authorized_public_keys_hex tx))))]
      else []).

(** [json_string.encode('utf-8')]: the dump is pure ASCII, so its UTF-8
    encoding is one byte per character. *)
Definition data_for_hashing (tx : Transaction) : bytes :=
  String.list_byte_of_string (json_dumps_sorted (payload_to_hash tx)).

(* ================================================================== *)
(** ** [to_dict_for_file] / [from_dict_for_file] *)

(** The dict written by [SignerInfo.to_dict]. *)
Module SignerDict.
Record t := mk { publicKeyHex : string; signatureHex : string }.
End SignerDict.

Definition SignerInfo_to_dict (s : SignerInfo.t) : SignerDict.t :=
  SignerDict.mk (SignerInfo.public_key_hex s) (SignerInfo.signature_hex s).

Definition SignerInfo_from_dict (d : SignerDict.t) : SignerInfo.t :=
  SignerInfo.mk (SignerDict.publicKeyHex d) (SignerDict.signatureHex d).

(** The dict produced by [to_dict_for_file], one field per key (JSON [null]
    is [None]). *)
Record TxFileDict := mkTxFileDict {
  f_id_hex : option string;
  f_timestamp : Z;
  f_from_address_hex : string;
  f_public_key_hex : option string;
  f_signature_hex : option string;
  f_tx_type : string;
  f_to_address_hex : option string;
  f_amount : Z;
  f_fee : Z;
  f_contract_code_bytes_b64 : option string;
  f_target_contract_address_hex : option string;
  f_function_name : option string;
  f_arguments_bytes_b64 : option string;
  f_required_signatures : Z;
  f_authorized_public_keys_hex : list string;
  f_signers : list SignerDict.t
}.

(** [base64.b64encode(b).decode('utf-8') if b else None]. *)
Definition b64_or_none (o : option bytes) : option string :=
  match o with
  | Some b => if truthy_bytes (Some b) then Some (b64encode b) else None
  | None => None
  end.

Definition to_dict_for_file (tx : Transaction) : TxFileDict :=
  {| f_id_hex := id_hex tx;
     f_timestamp := timestamp tx;
     f_from_address_hex := from_address_hex tx;
     f_public_key_hex := public_key_hex tx;
     f_signature_hex := signature_hex tx;
     f_tx_type := tx_type tx;
     f_to_address_hex := to_address_hex tx;
     f_amount := amount tx;
     f_fee := fee tx;
     f_contract_code_bytes_b64 := b64_or_none (contract_code_bytes tx);
     f_target_contract_address_hex := target_contract_address_hex tx;
     f_function_name := function_name tx;
     f_arguments_bytes_b64 := b64_or_none (arguments_bytes tx);
     f_required_signatures := required_signatures tx;
     f_authorized_public_keys_hex := authorized_public_keys_hex tx;
     f_signers := map SignerInfo_to_dict (signers tx) |}.

(** [base64.b64decode(s) if s else None]; [None] at the outer level is a
    raised decoding error. *)
Definition b64decode_or_none (o : option string) : option (option bytes) :=
  match o with
  | Some s => if truthy_str (Some s)
              then match b64decode s with Some b => Some (Some b) | None => None end
              else Some None
  | None => Some None
  end.

(** [Transaction.from_dict_for_file]: [None] when a base64 field fails to
    decode.  The clock reading [now_ns] is only used by the constructor
    when the timestamp is [None], which a [TxFileDict] never holds. *)
Definition from_dict_for_file (now_ns : Z) (data : TxFileDict) : option Transaction :=
  let signers_list := map SignerInfo_from_dict (f_signers data) in
  match b64decode_or_none (f_contract_code_bytes_b64 data),
        b64decode_or_none (f_arguments_bytes_b64 data) with
  | Some code, Some args =>
      Some (Transaction_init now_ns (f_from_address_hex data) (Some (f_timestamp data))
              (f_to_address_hex data) (f_amount data) (f_fee data) code
              (f_target_contract_address_hex data) (f_function_name data) args
              (f_public_key_hex data) (f_signature_hex data)
              (f_required_signatures data) (Some (f_authorized_public_keys_hex data))
              (Some signers_list) (f_tx_type data) (f_id_hex data))
  | _, _ => None
  end.

(* ================================================================== *)
(** ** Errors *)

(** The [ValueError]s raised by [Transaction.add_signature], one
    constructor per message. *)
Inductive tx_error :=
  | NotMultisigConfigured   (* "Transaction is not configured for multi-signature" *)
  | UnauthorizedSigner      (* "Signer's public key ... is not in the authorized list." *)
  | ContentHashMismatch     (* "Transaction content hash mismatch after initiation." *)
  | HexDecodeError.         (* [bytes.fromhex] on the content hash *)

(** Outcome of a method call: a returned value or a raised exception.  The
    object's state after the call is returned alongside. *)
Inductive outcome :=
  | Returned (b : bool)
  | Raised (e : tx_error).

(** The [ValueError]s raised by [derive_multisig_address]. *)
Inductive derive_error :=
  | M_out_of_range          (* "M must be between 1 and N" *)
  | EmptyKeyList            (* "Authorized public key list cannot be empty." *)
  | DuplicateKeys           (* "Duplicate public keys found in authorized list." *)
  | M_too_large             (* "M value too large for single byte representation" *)
  | InvalidPublicKey (k : string). (* "Invalid hex string for public key ..." *)

Definition signer_key_le (a b : SignerInfo.t) : Prop :=
  String.le (SignerInfo.public_key_hex a) (SignerInfo.public_key_hex b).

#[global] Instance signer_key_le_dec : RelDecision signer_key_le :=
  fun a b => String.le_dec (SignerInfo.public_key_hex a) (SignerInfo.public_key_hex b).

(** [self.signers.sort(key=lambda s: s.public_key_hex)]. *)
Definition sort_signers (ss : list SignerInfo.t) : list SignerInfo.t :=
  merge_sort signer_key_le ss.

Definition signer_keys (ss : list SignerInfo.t) : list string :=
  map SignerInfo.public_key_hex ss.

(** [self.required_signatures > 0 and len(self.authorized_public_keys_hex) > 0]. *)
Definition is_multisig (tx : Transaction) : bool :=
  (0 <? required_signatures tx) && (0 <? Z.of_nat (length (authorized_public_keys_hex tx))).

(* ================================================================== *)
(** ** Which fields the canonical digest reads *)

(** Two transactions agree on every field that [data_for_hashing] reads:
    the common fields, the authorized keys as a set, the public key when
    [required_signatures == 0], and the fields of the branch selected by
    [tx_type] (none for a type other than the three known ones). *)
Definition covered_fields_agree (tx tx' : Transaction) : Prop :=
  fee tx = fee tx' /\ from_address_hex tx = from_address_hex tx' /\
  timestamp tx = timestamp tx' /\ tx_type tx = tx_type tx' /\
  required_signatures tx = required_signatures tx' /\
  (forall k, k ∈ authorized_public_keys_hex tx <-> k ∈ authorized_public_keys_hex tx') /\
  (required_signatures tx = 0 -> public_key_hex tx = public_key_hex tx') /\
  (if String.eqb (tx_type tx) TX_STANDARD then
     to_address_hex tx = to_address_hex tx' /\ amount tx = amount tx'
   else if String.eqb (tx_type tx) TX_CONTRACT_DEPLOY then
     contract_code_bytes tx = contract_code_bytes tx' /\ amount tx = amount tx'
   else if String.eqb (tx_type tx) TX_CONTRACT_CALL then
     target_contract_address_hex tx = target_contract_address_hex tx' /\
     function_name tx = function_name tx' /\
     arguments_bytes tx = arguments_bytes tx' /\ amount tx = amount tx'
   else True).

(* ================================================================== *)
(** ** [Transaction.sign_single] errors *)

Inductive single_error :=
  | UseAddSignature        (* "Use 'add_signature' for multi-sig configured transactions." *)
  | SingleHexDecodeError.  (* [bytes.fromhex] on the content hash *)

(* ================================================================== *)
(** ** Multi-signature configuration files (multisig.py) *)

(** The dict of a configuration file as [json.load] returns it; [None] is a
    missing key.  The values have the types [create_multisig_config] writes
    (int, list of str, str, int), and [json.dump] followed by [json.load]
    gives back the same dict. *)
Module MultisigConfig.
Record t := mk {
  m_required : option Z;
  authorized_public_keys_hex : option (list string);
  multisig_address_hex : option string;
  n_total_keys : option Z
}.
End MultisigConfig.

(** The exceptions of [create_multisig_config] and [load_multisig_config]. *)
Inductive config_error :=
  | WalletPasswordCountMismatch  (* "Number of wallet files and passwords must match." *)
  | CreateBadM                   (* "M (required signatures) must be > 0 and <= N ..." *)
  | WalletLoadError              (* "Error loading wallet ..." *)
  | DuplicateSignerKeys          (* "Duplicate public keys detected among authorized signers." *)
  | ConfigDeriveError (e : derive_error)  (* raised by [derive_multisig_address] *)
  | ConfigFileNotFound           (* [FileNotFoundError] *)
  | ConfigIncomplete             (* "Invalid or incomplete multi-sig config file." *)
  | ConfigBadMN                  (* "Invalid M or N values in config." *)
  | ConfigKeyCountMismatch       (* "Mismatch between n_total_keys and length ..." *)
  | ConfigAddressMismatch.       (* "Multi-sig address in config does not match ..." *)

(** The loop of [create_multisig_config] over the wallet files: each entry
    is [public_key_to_address] of the loaded key, or [None] when
    [load_private_key] raises (wrapped into one [ValueError]). *)
Fixpoint load_wallets (ws : list (option string)) : option (list string) :=
  match ws with
  | [] => Some []
  | w :: ws' =>
      match w, load_wallets ws' with
      | Some a, Some l => Some (a :: l)
      | _, _ => None
      end
  end.

(* ================================================================== *)
(** ** did_utils.py *)

(** [binascii.unhexlify] on a [str]: pairs of hexadecimal digits of either
    case; an odd length or another character raises [binascii.Error]. *)
Fixpoint unhexlify (s : string) : option bytes :=
  match s with
  | String.EmptyString => Some []
  | String.String _ String.EmptyString => None
  | String.String c1 (String.String c2 s') =>
      match hex_value c1, hex_value c2, unhexlify s' with
      | Some h, Some l, Some r => Some (byte_of_Z (h * 16 + l) :: r)
      | _, _, _ => None
      end
  end.

(** The exceptions of [generate_did_key_from_public_key_hex]. *)
Inductive did_error :=
  | DidInvalidFormat  (* "Invalid public key hex format. ..." *)
  | DidNotAscii       (* [unhexlify] on a non-ASCII [str]: [ValueError], not caught *)
  | DidNotHex         (* "Public key hex is not a valid hex string." *)
  | DidInvalidBytes   (* "Invalid public key bytes after hex decoding. ..." *)
  | DidWrapFailed.    (* "Failed to wrap public key with multicodec ..." *)

Section DidKey.

(** [multicodec.wrap('p256-pub', b)]; [None] when it raises. *)
Variable multicodec_wrap : bytes -> option bytes.

(** [multibase.encode('base58btc', b).decode('utf-8')]. *)
Variable multibase_base58btc : bytes -> string.

Definition generate_did_key_from_public_key_hex (public_key_hex : string) : did_error + string :=
  if negb (String.prefix "04" public_key_hex) ||
     negb (Nat.eqb (String.length public_key_hex) 130)
  then inl DidInvalidFormat
  else if negb (ascii_only public_key_hex) then inl DidNotAscii
  else match unhexlify public_key_hex with
       | None => inl DidNotHex
       | Some pub_key_bytes =>
           if negb (Nat.eqb (length pub_key_bytes) 65) ||
              negb (match pub_key_bytes with b :: _ => Byte.eqb b Byte.x04 | [] => false end)
           then inl DidInvalidBytes
           else match multicodec_wrap pub_key_bytes with
                | None => inl DidWrapFailed
                | Some prefixed_pub_key =>
                    inr (String.append "did:key:" (multibase_base58btc prefixed_pub_key))
                end
       end.

End DidKey.

(* ================================================================== *)
(** ** Hashing, signing and verification *)

Set Default Proof Using "Type".

Section Signing.

(** [hashlib.sha256(data).digest()]. *)
Variable sha256 : bytes -> bytes.

(** The key returned by [load_private_key]; loading failures are the key
    store's and are not modelled. *)
Variable SigningKey : Type.

(** [get_public_key_bytes(signing_key.public_key()).hex()]. *)
Variable key_public_hex : SigningKey -> string.

(** [signing_key.sign(digest, ec.ECDSA(utils.Prehashed(SHA256())))], DER. *)
Variable ecdsa_sign : SigningKey -> bytes -> bytes.

(** The [try] block of the verifier for one (public key hex, signature hex,
    digest): [true] iff [bytes.fromhex], [from_encoded_point] and [verify]
    all complete without raising. *)
Variable ecdsa_verify : string -> string -> bytes -> bool.

(** [Transaction.calculate_hash]. *)
Definition calculate_hash (tx : Transaction) : string :=
  bytes_hex (sha256 (data_for_hashing tx)).

(** [Transaction.add_signature]. *)
Definition add_signature (k : SigningKey) (tx : Transaction) : Transaction * outcome :=
  if negb (is_multisig tx) then (tx, Raised NotMultisigConfigured) else
  let signer_public_key_hex := key_public_hex k in
  if negb (py_in signer_public_key_hex (authorized_public_keys_hex tx))
  then (tx, Raised UnauthorizedSigner) else
  if existsb (fun s => String.eqb (SignerInfo.public_key_hex s) signer_public_key_hex)
       (signers tx)
  then (tx, Returned true) else
  let content_hash_hex := calculate_hash tx in
  let checked :=
    if negb (truthy_str (id_hex tx)) then Some (set_id_hex (Some content_hash_hex) tx)
    else if bool_decide (id_hex tx = Some content_hash_hex) then Some tx
    else None in
  match checked with
  | None => (tx, Raised ContentHashMismatch)
  | Some tx1 =>
      match fromhex content_hash_hex with
      | None => (tx1, Raised HexDecodeError)
      | Some content_hash_bytes =>
          let sig_hex := bytes_hex (ecdsa_sign k content_hash_bytes) in
          (set_signers
             (sort_signers (signers tx1 ++ [SignerInfo.mk signer_public_key_hex sig_hex]))
             tx1,
           Returned true)
      end
  end.

(** Independent signing sessions run one after another on the same record;
    a raised error ends the run. *)
Fixpoint add_signatures (ks : list SigningKey) (tx : Transaction) : Transaction * outcome :=
  match ks with
  | [] => (tx, Returned true)
  | k :: ks' =>
      match add_signature k tx with
      | (tx1, Returned _) => add_signatures ks' tx1
      | r => r
      end
  end.

(** The multi-signature loop of [verify_signatures_python]: [None] is an
    early [return False], [Some n] the final [valid_unique_signatures]. *)
Fixpoint verify_group_loop (auth : list string) (content_hash_bytes : bytes)
    (signed_pub_keys : list string) (valid : Z) (ss : list SignerInfo.t) : option Z :=
  match ss with
  | [] => Some valid
  | s :: ss' =>
      let pk := SignerInfo.public_key_hex s in
      if negb (py_in pk auth) then None
      else if py_in pk signed_pub_keys then None
      else if ecdsa_verify pk (SignerInfo.signature_hex s) content_hash_bytes
      then verify_group_loop auth content_hash_bytes (pk :: signed_pub_keys) (valid + 1) ss'
      else None
  end.

(** [Transaction.verify_signatures_python]; [None] is the [ValueError] of
    [bytes.fromhex] on the recomputed hash, which is never raised. *)
Definition verify_signatures_python (tx : Transaction) : option bool :=
  let content_hash_hex := calculate_hash tx in
  match fromhex content_hash_hex with
  | None => None
  | Some content_hash_bytes =>
      if 0 <? required_signatures tx then
        if Z.of_nat (length (signers tx)) <? required_signatures tx then Some false
        else match verify_group_loop (authorized_public_keys_hex tx) content_hash_bytes
                     [] 0 (signers tx) with
             | None => Some false
             | Some n => Some (required_signatures tx <=? n)
             end
      else
        match public_key_hex tx, signature_hex tx with
        | Some pk, Some sg =>
            if truthy_str (Some pk) && truthy_str (Some sg)
            then Some (ecdsa_verify pk sg content_hash_bytes) else Some false
        | _, _ => Some false
        end
  end.

(** The key loop of [derive_multisig_address]: the bytes fed to the hasher,
    or the [ValueError] of the first malformed key. *)
Fixpoint hash_sorted_keys (ks : list string) : derive_error + bytes :=
  match ks with
  | [] => inr []
  | k :: ks' =>
      match fromhex k with
      | None => inl (InvalidPublicKey k)
      | Some kb =>
          if negb (String.prefix "04" k) || negb (Nat.eqb (length kb) 65)
          then inl (InvalidPublicKey k)
          else match hash_sorted_keys ks' with
               | inl e => inl e
               | inr rest => inr (kb ++ rest)
               end
      end
  end.

(** [derive_multisig_address(m_required, authorized_pubkey_hex_list)]. *)
Definition derive_multisig_address (m_required : Z) (l : list string) : derive_error + string :=
  let n := Z.of_nat (length l) in
  if negb ((1 <=? m_required) && (m_required <=? n)) then inl M_out_of_range
  else if n =? 0 then inl EmptyKeyList
  else
    let sorted_pubkey_hex_list := py_sorted (py_set_list l) in
    if negb (Nat.eqb (length sorted_pubkey_hex_list) (length l)) then inl DuplicateKeys
    else if 255 <? m_required then inl M_too_large
    else match hash_sorted_keys sorted_pubkey_hex_list with
         | inl e => inl e
         | inr kb => inr (bytes_hex (sha256 (py_bytes_1 m_required ++ kb)))
         end.

(** [Transaction.sign_single]: the checks and assignments in the order of
    the source; the warning printed when the sender differs is output only. *)
Definition sign_single (k : SigningKey) (tx : Transaction) : Transaction * (single_error + bool) :=
  if 0 <? required_signatures tx then (tx, inl UseAddSignature) else
  let pk := key_public_hex k in
  let tx1 := set_public_key_hex (Some pk) tx in
  let tx2 := if String.eqb (from_address_hex tx1) pk then tx1
             else set_from_address_hex pk tx1 in
  let content_hash_hex := calculate_hash tx2 in
  let tx3 := set_id_hex (Some content_hash_hex) tx2 in
  match fromhex content_hash_hex with
  | None => (tx3, inl SingleHexDecodeError)
  | Some content_hash_bytes =>
      (set_signature_hex (Some (bytes_hex (ecdsa_sign k content_hash_bytes))) tx3, inr true)
  end.

(** [load_multisig_config(filepath)]; [None] is a missing file. *)
Definition load_multisig_config (file : option MultisigConfig.t) : config_error + MultisigConfig.t :=
  match file with
  | None => inl ConfigFileNotFound
  | Some config_data =>
      match MultisigConfig.m_required config_data,
            MultisigConfig.authorized_public_keys_hex config_data,
            MultisigConfig.multisig_address_hex config_data,
            MultisigConfig.n_total_keys config_data with
      | Some m, Some keys, Some addr, Some n =>
          if (m <=? 0) || (n <? m) then inl ConfigBadMN
          else if negb (Z.of_nat (length keys) =? n) then inl ConfigKeyCountMismatch
          else match derive_multisig_address m keys with
               | inl e => inl (ConfigDeriveError e)
               | inr re_derived_address =>
                   if String.eqb re_derived_address addr then inr config_data
                   else inl ConfigAddressMismatch
               end
      | _, _, _, _ => inl ConfigIncomplete
      end
  end.

(** [create_multisig_config(filepath, m_required, authorized_wallet_files,
    passwords)]: [wallets] holds, per wallet file, the address of the loaded
    key or [None] when loading raises; [n_passwords] is [len(passwords)].
    The result is the dict written to the file. *)
Definition create_multisig_config (m_required : Z) (wallets : list (option string))
    (n_passwords : nat) : config_error + MultisigConfig.t :=
  if negb (Nat.eqb (length wallets) n_passwords) then inl WalletPasswordCountMismatch
  else if (m_required <=? 0) || (Z.of_nat (length wallets) <? m_required) then inl CreateBadM
  else match load_wallets wallets with
       | None => inl WalletLoadError
       | Some authorized_pubkey_hex_list =>
           if negb (Nat.eqb (length (py_set_list authorized_pubkey_hex_list))
                            (length authorized_pubkey_hex_list))
           then inl DuplicateSignerKeys
           else
             let sorted_list := py_sorted authorized_pubkey_hex_list in
             match derive_multisig_address m_required sorted_list with
             | inl e => inl (ConfigDeriveError e)
             | inr multisig_address =>
                 inr (MultisigConfig.mk (Some m_required) (Some sorted_list)
                        (Some multisig_address) (Some (Z.of_nat (length sorted_list))))
             end
       end.

(** The [multisig initiate-tx] command (main.py): the transaction whose
    [to_dict_for_file] is written to the pending file.  The clock reading
    [now_ns] gives the timestamp; the only accepted type is [standard]. *)
Definition multisig_initiate_tx (now_ns : Z) (config_file : option MultisigConfig.t)
    (to_address_hex0 : string) (amount0 fee0 : Z) : config_error + Transaction :=
  match load_multisig_config config_file with
  | inl e => inl e
  | inr config =>
      match MultisigConfig.multisig_address_hex config, MultisigConfig.m_required config,
            MultisigConfig.authorized_public_keys_hex config with
      | Some addr, Some m, Some keys =>
          let tx := Transaction_init now_ns addr None (Some to_address_hex0) amount0 fee0
                      None None None None None None m (Some keys) (Some []) TX_STANDARD None in
          inr (set_id_hex (Some (calculate_hash tx)) tx)
      | _, _, _ => inl ConfigIncomplete
      end
  end.

(** The [multisig sign-tx] command (main.py) writing back to the pending
    file: the new file content.  Any exception is caught and reported, and
    the file is then left as it was. *)
Definition multisig_sign_tx (now_ns : Z) (k : SigningKey) (tx_data : TxFileDict) : TxFileDict :=
  match from_dict_for_file now_ns tx_data with
  | None => tx_data
  | Some tx =>
      match add_signature k tx with
      | (tx', Returned _) => to_dict_for_file tx'
      | (_, Raised _) => tx_data
      end
  end.

(** Independent [sign-tx] sessions, one per key, on the same file. *)
Definition multisig_sign_sessions (now_ns : Z) (ks : list SigningKey) (tx_data : TxFileDict)
    : TxFileDict :=
  fold_left (fun d k => multisig_sign_tx now_ns k d) ks tx_data.

(** A collected signer that counts: authorized, with a signature that
    verifies against the recomputed digest. *)
Definition signer_counts (tx : Transaction) (s : SignerInfo.t) : Prop :=
  SignerInfo.public_key_hex s ∈ authorized_public_keys_hex tx /\
  ecdsa_verify (SignerInfo.public_key_hex s) (SignerInfo.signature_hex s)
    (sha256 (data_for_hashing tx)) = true.

(** A key accepted by the deriver's format check: hex of exactly 65 bytes,
    the first being the uncompressed-point marker [0x04]. *)
Definition key_wellformed (k : string) : Prop :=
  exists kb, fromhex k = Some kb /\ length kb = 65%nat /\ head kb = Some Byte.x04.

(* ================================================================== *)
(** ** Proofs: bytes, hex and base64 *)

Lemma byte_val_range (b : Byte.byte) : 0 <= byte_val b < 256.
Proof.
  unfold byte_val. pose proof (Byte.to_N_bounded b). lia.
Qed.

Lemma byte_of_Z_val (b : Byte.byte) : byte_of_Z (byte_val b) = b.
Proof.
  unfold byte_of_Z. pose proof (byte_val_range b) as Hr.
  rewrite Z.mod_small by lia. unfold byte_val. rewrite N2Z.id, Byte.of_to_N.
  reflexivity.
Qed.

Lemma fromhex_hex_of_byte (b : Byte.byte) (rest : string) :
  fromhex (String.append (hex_of_byte b) rest) =
  match fromhex rest with Some bs => Some (b :: bs) | None => None end.
Proof. destruct b; reflexivity. Qed.

(** [bytes.fromhex(bs.hex()) == bs]. *)
Lemma fromhex_bytes_hex (bs : bytes) : fromhex (bytes_hex bs) = Some bs.
Proof.
  induction bs as [|b bs IH]; [reflexivity|].
  cbn [bytes_hex]. rewrite fromhex_hex_of_byte, IH. reflexivity.
Qed.

Lemma b64_char_ok (v : Z) :
  0 <= v < 64 ->
  Ascii.eqb (b64_char v) pad_char = false /\
  b64_index (b64_char v) = Some v /\
  (ascii_val (b64_char v) <? 128) = true.
Proof.
  intros Hv. rewrite <- (Z2Nat.id v) by lia.
  assert (Hn : (Z.to_nat v < 64)%nat) by lia.
  generalize dependent (Z.to_nat v). clear v Hv. intros n Hn.
  do 64 (destruct n as [|n]; [repeat split; reflexivity|]).
  lia.
Qed.

(** [Z.div_mod_to_equations] reverts the whole context; the section's
    variables are cleared first so that these facts do not depend on them. *)
Ltac b64_arith :=
  try clear ecdsa_verify ecdsa_sign key_public_hex sha256 SigningKey;
  Z.div_mod_to_equations; lia.

Lemma a2b_group (a b c : Byte.byte) (rest : string) pads left acc :
  let va := byte_val a in let vb := byte_val b in let vc := byte_val c in
  a2b_base64_go
    (String.String (b64_char (va / 4))
      (String.String (b64_char ((va mod 4) * 16 + vb / 16))
        (String.String (b64_char ((vb mod 16) * 4 + vc / 64))
          (String.String (b64_char (vc mod 64)) rest)))) 0 pads left acc =
  a2b_base64_go rest 0 0 0 (c :: b :: a :: acc).
Proof.
  intros va vb vc.
  pose proof (byte_val_range a) as Ra. pose proof (byte_val_range b) as Rb.
  pose proof (byte_val_range c) as Rc.
  assert (H0 : 0 <= va / 4 < 64) by (subst va; b64_arith).
  assert (H1 : 0 <= (va mod 4) * 16 + vb / 16 < 64) by (subst va vb; b64_arith).
  assert (H2 : 0 <= (vb mod 16) * 4 + vc / 64 < 64) by (subst vb vc; b64_arith).
  assert (H3 : 0 <= vc mod 64 < 64) by (subst vc; b64_arith).
  destruct (b64_char_ok _ H0) as (E0 & I0 & _).
  destruct (b64_char_ok _ H1) as (E1 & I1 & _).
  destruct (b64_char_ok _ H2) as (E2 & I2 & _).
  destruct (b64_char_ok _ H3) as (E3 & I3 & _).
  cbn [a2b_base64_go]. rewrite E0, I0, E1, I1, E2, I2, E3, I3.
  replace (va / 4 * 4 + ((va mod 4) * 16 + vb / 16) / 16) with va by (subst va vb; b64_arith).
  replace (((va mod 4) * 16 + vb / 16) mod 16 * 16 + ((vb mod 16) * 4 + vc / 64) / 4)
    with vb by (subst va vb vc; b64_arith).
  replace (((vb mod 16) * 4 + vc / 64) mod 4 * 64 + vc mod 64) with vc
    by (subst vb vc; b64_arith).
  subst va vb vc. rewrite !byte_of_Z_val. reflexivity.
Qed.

Lemma a2b_b64encode_aux (n : nat) (bs : bytes) (acc : list Byte.byte) :
  (length bs <= n)%nat ->
  a2b_base64_go (b64encode bs) 0 0 0 acc = Some (rev acc ++ bs).
Proof.
  revert bs acc. induction n as [|n IH]; intros bs acc Hlen.
  - destruct bs; [|simpl in Hlen; lia]. simpl. rewrite app_nil_r. reflexivity.
  - destruct bs as [|a [|b [|c rest]]].
    + simpl. rewrite app_nil_r. reflexivity.
    + pose proof (byte_val_range a) as Ra.
      assert (H0 : 0 <= byte_val a / 4 < 64) by b64_arith.
      assert (H1 : 0 <= (byte_val a mod 4) * 16 < 64) by b64_arith.
      destruct (b64_char_ok _ H0) as (E0 & I0 & _).
      destruct (b64_char_ok _ H1) as (E1 & I1 & _).
      cbn [b64encode a2b_base64_go]. rewrite E0, I0, E1, I1. cbn.
      replace (byte_val a / 4 * 4 + byte_val a mod 4 * 16 / 16) with (byte_val a)
        by b64_arith.
      rewrite byte_of_Z_val. reflexivity.
    + pose proof (byte_val_range a) as Ra. pose proof (byte_val_range b) as Rb.
      assert (H0 : 0 <= byte_val a / 4 < 64) by b64_arith.
      assert (H1 : 0 <= (byte_val a mod 4) * 16 + byte_val b / 16 < 64) by b64_arith.
      assert (H2 : 0 <= (byte_val b mod 16) * 4 < 64) by b64_arith.
      destruct (b64_char_ok _ H0) as (E0 & I0 & _).
      destruct (b64_char_ok _ H1) as (E1 & I1 & _).
      destruct (b64_char_ok _ H2) as (E2 & I2 & _).
      cbn [b64encode a2b_base64_go]. rewrite E0, I0, E1, I1, E2, I2. cbn.
      replace (byte_val a / 4 * 4 + (byte_val a mod 4 * 16 + byte_val b / 16) / 16)
        with (byte_val a) by b64_arith.
      replace ((byte_val a mod 4 * 16 + byte_val b / 16) mod 16 * 16
               + byte_val b mod 16 * 4 / 4) with (byte_val b) by b64_arith.
      rewrite !byte_of_Z_val, <- app_assoc. reflexivity.
    + cbn [b64encode]. rewrite a2b_group, IH by (simpl in Hlen; lia).
      cbn [rev]. rewrite <- !app_assoc. reflexivity.
Qed.


Lemma ascii_only_b64encode_aux (n : nat) (bs : bytes) :
  (length bs <= n)%nat -> ascii_only (b64encode bs) = true.
Proof.
  revert bs. induction n as [|n IH]; intros bs Hlen.
  - destruct bs; [reflexivity|simpl in Hlen; lia].
  - pose proof byte_val_range as R.
    destruct bs as [|a [|b [|c rest]]]; cbn [b64encode ascii_only].
    + reflexivity.
    + pose proof (R a).
      rewrite (proj2 (proj2 (b64_char_ok (byte_val a / 4) ltac:(b64_arith)))).
      rewrite (proj2 (proj2 (b64_char_ok (byte_val a mod 4 * 16) ltac:(b64_arith)))).
      reflexivity.
    + pose proof (R a). pose proof (R b).
      rewrite (proj2 (proj2 (b64_char_ok (byte_val a / 4) ltac:(b64_arith)))).
      rewrite (proj2 (proj2 (b64_char_ok (byte_val a mod 4 * 16 + byte_val b / 16)
                                 ltac:(b64_arith)))).
      rewrite (proj2 (proj2 (b64_char_ok (byte_val b mod 16 * 4) ltac:(b64_arith)))).
      reflexivity.
    + pose proof (R a). pose proof (R b). pose proof (R c).
      rewrite (proj2 (proj2 (b64_char_ok (byte_val a / 4) ltac:(b64_arith)))).
      rewrite (proj2 (proj2 (b64_char_ok (byte_val a mod 4 * 16 + byte_val b / 16)
                                 ltac:(b64_arith)))).
      rewrite (proj2 (proj2 (b64_char_ok (byte_val b mod 16 * 4 + byte_val c / 64)
                                 ltac:(b64_arith)))).
      rewrite (proj2 (proj2 (b64_char_ok (byte_val c mod 64) ltac:(b64_arith)))).
      apply IH. simpl in Hlen. lia.
Qed.

(** [base64.b64decode(base64.b64encode(bs)) == bs]. *)
Lemma b64decode_b64encode (bs : bytes) : b64decode (b64encode bs) = Some bs.
Proof.
  unfold b64decode.
  rewrite (ascii_only_b64encode_aux (length bs) bs) by lia.
  rewrite (a2b_b64encode_aux (length bs) bs []) by lia. reflexivity.
Qed.

Lemma b64encode_nonempty (bs : bytes) : bs <> [] -> truthy_str (Some (b64encode bs)) = true.
Proof. destruct bs as [|a [|b [|c rest]]]; [congruence|reflexivity..]. Qed.

(* ================================================================== *)
(** ** Proofs: [sorted] and [set] *)

Lemma py_sorted_Permutation (l : list string) : py_sorted l ≡ₚ l.
Proof. apply merge_sort_Permutation. Qed.

Lemma py_sorted_Sorted (l : list string) : Sorted String.le (py_sorted l).
Proof. apply Sorted_merge_sort. apply _. Qed.

(** [sorted] depends only on the multiset of its argument. *)
Lemma py_sorted_perm (l l' : list string) : l ≡ₚ l' -> py_sorted l = py_sorted l'.
Proof.
  intros Hp. apply (Sorted_unique String.le); try apply _; try apply py_sorted_Sorted.
  rewrite !py_sorted_Permutation. exact Hp.
Qed.

Lemma py_sorted_idem (l : list string) : py_sorted (py_sorted l) = py_sorted l.
Proof. apply py_sorted_perm, py_sorted_Permutation. Qed.

Lemma remove_dups_NoDup_id (l : list string) : NoDup l -> remove_dups l = l.
Proof.
  induction 1 as [|x l Hx Hnd IH]; [reflexivity|].
  cbn. destruct (decide_rel _ x l) as [Hin|_]; [contradiction|]. rewrite IH. reflexivity.
Qed.

Lemma remove_dups_length_le (l : list string) : (length (remove_dups l) <= length l)%nat.
Proof.
  induction l as [|x l IH]; [reflexivity|]. cbn.
  destruct (decide_rel _ x l); cbn; lia.
Qed.

Lemma remove_dups_same_length_NoDup (l : list string) :
  length (remove_dups l) = length l -> NoDup l.
Proof.
  induction l as [|x l IH]; intros Hlen; [constructor|].
  cbn in Hlen. destruct (decide_rel _ x l) as [Hin|Hnin].
  - pose proof (remove_dups_length_le l). cbn in Hlen. lia.
  - cbn in Hlen. constructor; [exact Hnin|]. apply IH. lia.
Qed.

Lemma py_set_list_perm (l l' : list string) :
  l ≡ₚ l' -> py_sorted (py_set_list l) = py_sorted (py_set_list l').
Proof.
  intros Hp. apply py_sorted_perm. unfold py_set_list. apply NoDup_Permutation.
  - apply NoDup_remove_dups.
  - apply NoDup_remove_dups.
  - intros x. rewrite !elem_of_remove_dups. rewrite Hp. reflexivity.
Qed.

Lemma py_set_list_sorted_idem (l : list string) :
  py_sorted (py_set_list (py_sorted (py_set_list l))) = py_sorted (py_set_list l).
Proof.
  unfold py_set_list at 1. rewrite remove_dups_NoDup_id.
  - apply py_sorted_idem.
  - rewrite py_sorted_Permutation. apply NoDup_remove_dups.
Qed.

Lemma py_in_spec (x : string) (l : list string) : py_in x l = true <-> x ∈ l.
Proof.
  unfold py_in. rewrite existsb_exists, list_elem_of_In. split.
  - intros (y & Hy & Heq). apply String.eqb_eq in Heq. subst. exact Hy.
  - intros Hx. exists x. split; [exact Hx|]. apply String.eqb_refl.
Qed.


(* ================================================================== *)
(** ** Proofs: [add_signature] *)

Lemma truthy_str_Some (s : string) : s <> "" -> truthy_str (Some s) = true.
Proof.
  intros Hs. cbn. destruct (String.eqb_spec s "") as [->|_]; [congruence|reflexivity].
Qed.

Lemma existsb_signer_key (pk : string) (ss : list SignerInfo.t) :
  existsb (fun s => String.eqb (SignerInfo.public_key_hex s) pk) ss = true <->
  pk ∈ signer_keys ss.
Proof.
  unfold signer_keys. rewrite existsb_exists, list_elem_of_In, in_map_iff. split.
  - intros (s & Hs & Heq). apply String.eqb_eq in Heq. exists s. auto.
  - intros (s & Heq & Hs). exists s. split; [exact Hs|]. apply String.eqb_eq. exact Heq.
Qed.

Lemma fromhex_calculate_hash (tx : Transaction) :
  fromhex (calculate_hash tx) = Some (sha256 (data_for_hashing tx)).
Proof. apply fromhex_bytes_hex. Qed.

(** The hashed content does not read [signers] nor [id_hex]. *)
Lemma data_for_hashing_set_signers (l : list SignerInfo.t) (tx : Transaction) :
  data_for_hashing (set_signers l tx) = data_for_hashing tx.
Proof. reflexivity. Qed.

Lemma data_for_hashing_set_id_hex (v : option string) (tx : Transaction) :
  data_for_hashing (set_id_hex v tx) = data_for_hashing tx.
Proof. reflexivity. Qed.

Ltac add_signature_cases :=
  unfold add_signature; repeat case_match; simplify_eq/=.

Lemma add_signature_data (k : SigningKey) (tx : Transaction) :
  data_for_hashing (add_signature k tx).1 = data_for_hashing tx.
Proof. add_signature_cases; reflexivity. Qed.

Lemma add_signature_auth (k : SigningKey) (tx : Transaction) :
  authorized_public_keys_hex (add_signature k tx).1 = authorized_public_keys_hex tx /\
  required_signatures (add_signature k tx).1 = required_signatures tx.
Proof. add_signature_cases; split; reflexivity. Qed.

Lemma add_signature_keeps_id (k : SigningKey) (tx : Transaction) (s : string) :
  id_hex tx = Some s -> s <> "" -> id_hex (add_signature k tx).1 = Some s.
Proof.
  intros Hid Hs. pose proof (truthy_str_Some s Hs) as Ht. rewrite <- Hid in Ht.
  add_signature_cases; try reflexivity; try congruence.
  all: rewrite Ht in *; discriminate.
Qed.

Lemma add_signatures_data (ks : list SigningKey) (tx : Transaction) :
  data_for_hashing (add_signatures ks tx).1 = data_for_hashing tx.
Proof.
  revert tx. induction ks as [|k ks IH]; intros tx; [reflexivity|].
  cbn [add_signatures]. destruct (add_signature k tx) as [tx1 o] eqn:E.
  pose proof (add_signature_data k tx) as Hd. rewrite E in Hd. cbn in Hd.
  destruct o; cbn; [rewrite IH|]; exact Hd.
Qed.

Lemma add_signatures_keeps_id (ks : list SigningKey) (tx : Transaction) (s : string) :
  id_hex tx = Some s -> s <> "" -> id_hex (add_signatures ks tx).1 = Some s.
Proof.
  revert tx. induction ks as [|k ks IH]; intros tx Hid Hs; [exact Hid|].
  cbn [add_signatures]. destruct (add_signature k tx) as [tx1 o] eqn:E.
  pose proof (add_signature_keeps_id k tx s Hid Hs) as Hk. rewrite E in Hk. cbn in Hk.
  destruct o; cbn; [apply IH|]; assumption.
Qed.

Lemma sort_signers_keys (ss : list SignerInfo.t) (x : string) :
  x ∈ signer_keys (sort_signers ss) <-> x ∈ signer_keys ss.
Proof.
  unfold signer_keys, sort_signers.
  rewrite (merge_sort_Permutation signer_key_le ss). reflexivity.
Qed.

Lemma add_signature_success (k : SigningKey) (tx tx1 : Transaction) :
  add_signature k tx = (tx1, Returned true) ->
  is_multisig tx = true /\
  key_public_hex k ∈ authorized_public_keys_hex tx /\
  key_public_hex k ∈ signer_keys (signers tx1).
Proof.
  unfold add_signature. intros Hr.
  destruct (is_multisig tx) eqn:Em; cbn in Hr; [|discriminate].
  destruct (py_in _ _) eqn:Ea; cbn in Hr; [|discriminate].
  apply py_in_spec in Ea. split; [reflexivity|]. split; [exact Ea|].
  destruct (existsb _ _) eqn:Ee.
  - injection Hr as <-. apply existsb_signer_key. exact Ee.
  - revert Hr. repeat case_match; intros Hr; simplify_eq/=.
    all: apply sort_signers_keys; unfold signer_keys; rewrite map_app;
         apply elem_of_app; right; cbn; left.
Qed.


Lemma existsb_signer_key_false (pk : string) (ss : list SignerInfo.t) :
  pk ∉ signer_keys ss ->
  existsb (fun s => String.eqb (SignerInfo.public_key_hex s) pk) ss = false.
Proof.
  intros Hn. destruct (existsb _ _) eqn:E; [|reflexivity].
  exfalso. apply Hn, existsb_signer_key. exact E.
Qed.

(** C1: the canonical digest does not read the collected signers, so any
    number of [add_signature] sessions leave it unchanged; and an identifier
    that is set (a non-empty string) is never changed by them. *)
Theorem add_signatures_digest_and_id_stable (ks : list SigningKey) (tx : Transaction) :
  (forall l : list SignerInfo.t, calculate_hash (set_signers l tx) = calculate_hash tx) /\
  calculate_hash (add_signatures ks tx).1 = calculate_hash tx /\
  (forall s : string, id_hex tx = Some s -> s <> "" ->
     id_hex (add_signatures ks tx).1 = Some s).
Proof.
  split; [intros l; reflexivity|]. split.
  - unfold calculate_hash. rewrite add_signatures_data. reflexivity.
  - apply add_signatures_keeps_id.
Qed.

(** C3: for an authorized key that has not signed yet, the first successful
    [add_signature] on a transaction without identifier sets the identifier
    to the fresh digest; with an identifier that differs from the fresh
    digest the call raises the content-mismatch [ValueError] and leaves the
    transaction, its signers included, unchanged. *)
Theorem add_signature_fixes_or_checks_id (k : SigningKey) (tx : Transaction) :
  is_multisig tx = true ->
  key_public_hex k ∈ authorized_public_keys_hex tx ->
  key_public_hex k ∉ signer_keys (signers tx) ->
  (id_hex tx = None ->
     exists tx1, add_signature k tx = (tx1, Returned true) /\
       id_hex tx1 = Some (calculate_hash tx) /\
       signers tx1 = sort_signers (signers tx ++
         [SignerInfo.mk (key_public_hex k)
            (bytes_hex (ecdsa_sign k (sha256 (data_for_hashing tx))))])) /\
  (forall s : string, id_hex tx = Some s -> s <> "" -> s <> calculate_hash tx ->
     add_signature k tx = (tx, Raised ContentHashMismatch)).
Proof.
  intros Hm Ha Hn.
  assert (Ea : py_in (key_public_hex k) (authorized_public_keys_hex tx) = true)
    by (apply py_in_spec; exact Ha).
  pose proof (existsb_signer_key_false _ _ Hn) as Ee.
  unfold add_signature. rewrite Hm, Ea, Ee. cbv zeta. cbn [negb]. split.
  - intros Hid. rewrite Hid. cbn [truthy_str negb]. rewrite fromhex_calculate_hash.
    eexists. split; [reflexivity|]. split; reflexivity.
  - intros s Hid Hs Hne. rewrite Hid, (truthy_str_Some s Hs). cbn [negb].
    rewrite bool_decide_false by congruence. reflexivity.
Qed.

(** C5: a key outside the authorized list raises the unauthorized-signer
    [ValueError] and leaves the transaction unchanged. *)
Theorem add_signature_unauthorized_unchanged (k : SigningKey) (tx : Transaction) :
  is_multisig tx = true ->
  key_public_hex k ∉ authorized_public_keys_hex tx ->
  add_signature k tx = (tx, Raised UnauthorizedSigner).
Proof.
  intros Hm Ha. unfold add_signature. rewrite Hm. cbv zeta. cbn [negb].
  destruct (py_in _ _) eqn:E; [|reflexivity].
  apply py_in_spec in E. contradiction.
Qed.

(** C6: signing again with a key that already has an entry returns [True]
    and changes nothing; in particular a second [add_signature] with the key
    of a successful one is a no-op. *)
Theorem add_signature_idempotent (k : SigningKey) (tx : Transaction) :
  (is_multisig tx = true ->
   key_public_hex k ∈ authorized_public_keys_hex tx ->
   key_public_hex k ∈ signer_keys (signers tx) ->
   add_signature k tx = (tx, Returned true)) /\
  (forall tx1 : Transaction, add_signature k tx = (tx1, Returned true) ->
   add_signature k tx1 = (tx1, Returned true) /\
   length (signers (add_signature k tx1).1) = length (signers tx1)).
Proof.
  assert (Hno : forall t, is_multisig t = true ->
            key_public_hex k ∈ authorized_public_keys_hex t ->
            key_public_hex k ∈ signer_keys (signers t) ->
            add_signature k t = (t, Returned true)).
  { intros t Hm Ha Hs. unfold add_signature. rewrite Hm. cbv zeta. cbn [negb].
    rewrite (proj2 (py_in_spec _ _) Ha). cbn [negb].
    rewrite (proj2 (existsb_signer_key _ _) Hs). reflexivity. }
  split; [apply Hno|].
  intros tx1 Hr. pose proof (add_signature_success k tx tx1 Hr) as (Hm & Ha & Hs).
  pose proof (add_signature_auth k tx) as [HA HM]. rewrite Hr in HA, HM. cbn in HA, HM.
  assert (Hm1 : is_multisig tx1 = true) by (unfold is_multisig in *; rewrite HA, HM; exact Hm).
  rewrite <- HA in Ha. rewrite (Hno tx1 Hm1 Ha Hs). split; reflexivity.
Qed.


(* ================================================================== *)
(** ** Proofs: [verify_signatures_python] *)

Lemma verify_group_loop_Some (auth : list string) (hb : bytes) (ss : list SignerInfo.t) :
  forall signed v n,
  verify_group_loop auth hb signed v ss = Some n ->
  n = v + Z.of_nat (length ss) /\ NoDup (signer_keys ss) /\
  Forall (fun s => SignerInfo.public_key_hex s ∈ auth /\
                   ecdsa_verify (SignerInfo.public_key_hex s) (SignerInfo.signature_hex s) hb = true /\
                   SignerInfo.public_key_hex s ∉ signed) ss.
Proof.
  induction ss as [|s ss IH]; intros signed v n Hl; cbn [verify_group_loop] in Hl.
  - injection Hl as <-. split; [cbn; lia|]. split; constructor.
  - destruct (py_in _ auth) eqn:Ea; cbn [negb] in Hl; [|discriminate].
    destruct (py_in _ signed) eqn:Es; [discriminate|].
    destruct (ecdsa_verify _ _ _) eqn:Ev; [|discriminate].
    destruct (IH _ _ _ Hl) as (Hn & Hnd & Hf). split; [rewrite Hn; cbn [length]; lia|].
    split.
    + cbn. constructor; [|exact Hnd].
      intros Hin. unfold signer_keys in Hin. apply list_elem_of_In, in_map_iff in Hin.
      destruct Hin as (s' & Heq & Hs'). apply list_elem_of_In in Hs'.
      rewrite Forall_forall in Hf. destruct (Hf s' Hs') as (_ & _ & Hn').
      apply Hn'. rewrite Heq. left.
    + constructor; [|eapply Forall_impl; [exact Hf|]].
      * split; [apply py_in_spec; exact Ea|]. split; [exact Ev|].
        intros Hin. apply py_in_spec in Hin. congruence.
      * intros x (Hx1 & Hx2 & Hx3). split; [exact Hx1|]. split; [exact Hx2|].
        intros Hin. apply Hx3. right. exact Hin.
Qed.

Lemma verify_group_loop_ok (auth : list string) (hb : bytes) (ss : list SignerInfo.t) :
  forall signed v,
  NoDup (signer_keys ss) ->
  Forall (fun s => SignerInfo.public_key_hex s ∈ auth /\
                   ecdsa_verify (SignerInfo.public_key_hex s) (SignerInfo.signature_hex s) hb = true /\
                   SignerInfo.public_key_hex s ∉ signed) ss ->
  verify_group_loop auth hb signed v ss = Some (v + Z.of_nat (length ss)).
Proof.
  induction ss as [|s ss IH]; intros signed v Hnd Hf.
  - cbn. f_equal. lia.
  - inversion Hf as [|? ? (Ha & Hv & Hs) Hf']; subst.
    cbn in Hnd. inversion Hnd as [|? ? Hn Hnd']; subst.
    cbn [verify_group_loop]. rewrite (proj2 (py_in_spec _ _) Ha). cbn [negb].
    destruct (py_in _ signed) eqn:Es; [apply py_in_spec in Es; contradiction|].
    rewrite Hv. rewrite IH.
    + f_equal. cbn [length]. lia.
    + exact Hnd'.
    + rewrite Forall_forall in Hf' |- *. intros x Hx.
      destruct (Hf' x Hx) as (Hx1 & Hx2 & Hx3).
      split; [exact Hx1|]. split; [exact Hx2|].
      intros Hin. apply elem_of_cons in Hin as [Heq|Hin]; [|contradiction].
      apply Hn. rewrite <- Heq. apply list_elem_of_In, in_map, list_elem_of_In. exact Hx.
Qed.


Lemma verify_group_eq (tx : Transaction) :
  0 < required_signatures tx ->
  verify_signatures_python tx =
  if Z.of_nat (length (signers tx)) <? required_signatures tx then Some false
  else match verify_group_loop (authorized_public_keys_hex tx)
               (sha256 (data_for_hashing tx)) [] 0 (signers tx) with
       | None => Some false
       | Some n => Some (required_signatures tx <=? n)
       end.
Proof.
  intros Hm. unfold verify_signatures_python. cbv zeta.
  rewrite fromhex_calculate_hash. rewrite (proj2 (Z.ltb_lt _ _) Hm). reflexivity.
Qed.

Lemma verify_group_false_unless (tx : Transaction) :
  0 < required_signatures tx ->
  ~ (NoDup (signer_keys (signers tx)) /\ Forall (signer_counts tx) (signers tx)) ->
  verify_signatures_python tx = Some false.
Proof.
  intros Hm Hbad. rewrite (verify_group_eq tx Hm).
  destruct (_ <? _); [reflexivity|].
  destruct (verify_group_loop _ _ _ _ _) as [n|] eqn:El; [|reflexivity].
  exfalso. apply Hbad. apply verify_group_loop_Some in El as (_ & Hnd & Hf).
  split; [exact Hnd|]. eapply Forall_impl; [exact Hf|].
  intros x (Hx1 & Hx2 & _). split; assumption.
Qed.

(** C2: in group mode ([required_signatures > 0]) verification fails with
    fewer collected signers than M, and fails as soon as a collected signer
    is unauthorized, repeated, or has a signature that does not verify
    against the freshly recomputed digest; when none of these occurs every
    collected signer is a distinct valid authorized one and the result is
    whether their count reaches M.  Hence it returns [True] exactly when
    there are at least M collected signers, all distinct, authorized and
    valid. *)
Theorem verify_signatures_group_mode (tx : Transaction) :
  0 < required_signatures tx ->
  (Z.of_nat (length (signers tx)) < required_signatures tx ->
     verify_signatures_python tx = Some false) /\
  ((exists s, s ∈ signers tx /\
              SignerInfo.public_key_hex s ∉ authorized_public_keys_hex tx) ->
     verify_signatures_python tx = Some false) /\
  (~ NoDup (signer_keys (signers tx)) -> verify_signatures_python tx = Some false) /\
  ((exists s, s ∈ signers tx /\
              ecdsa_verify (SignerInfo.public_key_hex s) (SignerInfo.signature_hex s)
                (sha256 (data_for_hashing tx)) = false) ->
     verify_signatures_python tx = Some false) /\
  (NoDup (signer_keys (signers tx)) -> Forall (signer_counts tx) (signers tx) ->
     verify_signatures_python tx =
       Some (required_signatures tx <=? Z.of_nat (length (signers tx)))) /\
  (verify_signatures_python tx = Some true <->
     required_signatures tx <= Z.of_nat (length (signers tx)) /\
     NoDup (signer_keys (signers tx)) /\ Forall (signer_counts tx) (signers tx)).
Proof.
  intros Hm.
  assert (Hok : NoDup (signer_keys (signers tx)) -> Forall (signer_counts tx) (signers tx) ->
     verify_signatures_python tx =
       Some (required_signatures tx <=? Z.of_nat (length (signers tx)))).
  { intros Hnd Hf. rewrite (verify_group_eq tx Hm).
    rewrite (verify_group_loop_ok _ _ _ [] 0 Hnd).
    - destruct (Z.ltb_spec (Z.of_nat (length (signers tx))) (required_signatures tx)).
      + f_equal. symmetry. apply Z.leb_gt. lia.
      + reflexivity.
    - eapply Forall_impl; [exact Hf|]. intros x (Hx1 & Hx2).
      split; [exact Hx1|]. split; [exact Hx2|]. apply not_elem_of_nil. }
  split; [|split; [|split; [|split; [|split]]]].
  - intros Hlt. rewrite (verify_group_eq tx Hm).
    rewrite (proj2 (Z.ltb_lt _ _) Hlt). reflexivity.
  - intros (s & Hs & Ha). apply verify_group_false_unless; [exact Hm|].
    intros (_ & Hf). rewrite Forall_forall in Hf. apply Ha, (Hf s Hs).
  - intros Hnd. apply verify_group_false_unless; [exact Hm|]. intros (Hnd' & _). auto.
  - intros (s & Hs & Hv). apply verify_group_false_unless; [exact Hm|].
    intros (_ & Hf). rewrite Forall_forall in Hf. destruct (Hf s Hs) as [_ Hv'].
    congruence.
  - exact Hok.
  - split.
    + intros Hv.
      destruct (decide (NoDup (signer_keys (signers tx)) /\
                        Forall (signer_counts tx) (signers tx))) as [[Hnd Hf]|Hbad].
      * rewrite (Hok Hnd Hf) in Hv. injection Hv as Hv. apply Z.leb_le in Hv. auto.
      * rewrite (verify_group_false_unless tx Hm Hbad) in Hv. discriminate.
    + intros (Hle & Hnd & Hf). rewrite (Hok Hnd Hf). f_equal. apply Z.leb_le. exact Hle.
Qed.


(* ================================================================== *)
(** ** Proofs: [derive_multisig_address] *)

Lemma byte_val_byte_of_Z (m : Z) : 0 <= m < 256 -> byte_val (byte_of_Z m) = m.
Proof.
  intros Hm. unfold byte_of_Z. rewrite Z.mod_small by lia.
  destruct (Byte.of_N (Z.to_N m)) as [b|] eqn:E.
  - apply Byte.to_of_N in E. unfold byte_val. rewrite E. apply Z2N.id. lia.
  - apply Byte.of_N_None_iff in E. lia.
Qed.

Lemma prefix04_fromhex_head (k : string) (kb : bytes) :
  String.prefix "04" k = true -> fromhex k = Some kb -> head kb = Some Byte.x04.
Proof.
  intros Hp Hf.
  destruct k as [|c1 [|c2 k]]; cbn [String.prefix] in Hp; [discriminate| |];
    repeat case_match; subst; try discriminate.
  cbn in Hf. destruct (fromhex k); [|discriminate]. injection Hf as <-. reflexivity.
Qed.

Lemma hash_sorted_keys_inr (ks : list string) (kb : bytes) :
  hash_sorted_keys ks = inr kb ->
  exists kbs, Forall2 (fun k b => fromhex k = Some b) ks kbs /\ kb = concat kbs /\
              Forall key_wellformed ks.
Proof.
  revert kb. induction ks as [|k ks IH]; intros kb Hh; cbn [hash_sorted_keys] in Hh.
  - injection Hh as <-. exists []. split; [constructor|]. split; [reflexivity|constructor].
  - destruct (fromhex k) as [b|] eqn:Ef; [|discriminate].
    destruct (String.prefix "04" k) eqn:Ep; cbn [negb orb] in Hh; [|discriminate].
    destruct (Nat.eqb (length b) 65) eqn:El; cbn [negb] in Hh; [|discriminate].
    destruct (hash_sorted_keys ks) as [e|rest]; [discriminate|].
    injection Hh as <-. destruct (IH rest eq_refl) as (kbs & Hf2 & -> & Hwf).
    exists (b :: kbs). split; [constructor; assumption|]. split; [reflexivity|].
    constructor; [|exact Hwf]. exists b. split; [exact Ef|]. split.
    + apply Nat.eqb_eq. exact El.
    + eapply prefix04_fromhex_head; eassumption.
Qed.

Lemma derive_inr_inv (m : Z) (l : list string) (h : string) :
  derive_multisig_address m l = inr h ->
  1 <= m <= 255 /\ 1 <= m <= Z.of_nat (length l) /\ NoDup l /\
  exists kb, hash_sorted_keys (py_sorted l) = inr kb /\
             h = bytes_hex (sha256 (py_bytes_1 m ++ kb)).
Proof.
  unfold derive_multisig_address. cbv zeta. intros Hd.
  destruct ((1 <=? m) && (m <=? Z.of_nat (length l))) eqn:Er; cbn [negb] in Hd;
    [|discriminate].
  apply andb_true_iff in Er as [E1 E2]. apply Z.leb_le in E1, E2.
  destruct (Z.of_nat (length l) =? 0) eqn:E0; [discriminate|].
  destruct (Nat.eqb (length (py_sorted (py_set_list l))) (length l)) eqn:Ed;
    cbn [negb] in Hd; [|discriminate].
  assert (Hnd : NoDup l).
  { apply remove_dups_same_length_NoDup. apply Nat.eqb_eq in Ed.
    rewrite py_sorted_Permutation in Ed. exact Ed. }
  destruct (255 <? m) eqn:Em; [discriminate|]. apply Z.ltb_ge in Em.
  unfold py_set_list in Hd. rewrite (remove_dups_NoDup_id l Hnd) in Hd.
  destruct (hash_sorted_keys (py_sorted l)) as [e|kb]; [discriminate|].
  injection Hd as <-. split; [lia|]. split; [lia|]. split; [exact Hnd|].
  exists kb. split; reflexivity.
Qed.

(** C4: the derived identifier does not depend on the order of the key
    list, and a successful derivation is the hex SHA-256 digest of the
    single byte M followed by the bytes of the keys, the hex keys taken in
    lexicographic order. *)
Theorem derive_multisig_address_canonical (m : Z) (l l' : list string) :
  l ≡ₚ l' ->
  derive_multisig_address m l = derive_multisig_address m l' /\
  (forall h : string, derive_multisig_address m l = inr h ->
     Sorted String.le (py_sorted l) /\ py_sorted l ≡ₚ l /\
     byte_val (byte_of_Z m) = m /\
     exists kbs : list bytes,
       Forall2 (fun k kb => fromhex k = Some kb) (py_sorted l) kbs /\
       h = bytes_hex (sha256 (byte_of_Z m :: concat kbs))).
Proof.
  intros Hp. split.
  - unfold derive_multisig_address. cbv zeta.
    rewrite (Permutation_length Hp), (py_set_list_perm l l' Hp). reflexivity.
  - intros h Hd. apply derive_inr_inv in Hd as (Hm & _ & _ & kb & Hh & ->).
    split; [apply py_sorted_Sorted|]. split; [apply py_sorted_Permutation|].
    split; [apply byte_val_byte_of_Z; lia|].
    destruct (hash_sorted_keys_inr _ _ Hh) as (kbs & Hf2 & -> & _).
    exists kbs. split; [exact Hf2|]. reflexivity.
Qed.

(** C7: the deriver raises a [ValueError] unless 1 <= M <= N and N >= 1,
    on duplicate keys, on a key that is not the hex of 65 bytes starting
    with [0x04], and when M exceeds 255. *)
Theorem derive_multisig_address_rejects (m : Z) (l : list string) :
  (~ (1 <= m <= Z.of_nat (length l)) -> exists e, derive_multisig_address m l = inl e) /\
  (l = [] -> exists e, derive_multisig_address m l = inl e) /\
  (~ NoDup l -> exists e, derive_multisig_address m l = inl e) /\
  ((exists k, k ∈ l /\ ~ key_wellformed k) -> exists e, derive_multisig_address m l = inl e) /\
  (255 < m -> exists e, derive_multisig_address m l = inl e).
Proof.
  assert (Hgen : forall P : Prop,
            (forall h, derive_multisig_address m l = inr h -> P -> False) ->
            P -> exists e, derive_multisig_address m l = inl e).
  { intros P Hc HP. destruct (derive_multisig_address m l) as [e|h] eqn:E.
    - exists e. reflexivity.
    - exfalso. exact (Hc h eq_refl HP). }
  split; [|split; [|split; [|split]]]; apply Hgen; intros h Hd;
    apply derive_inr_inv in Hd as (Hm & Hr & Hnd & kb & Hh & _).
  - intros Hn. apply Hn. exact Hr.
  - intros ->. cbn in Hr. lia.
  - intros Hn. apply Hn. exact Hnd.
  - intros (k & Hk & Hwf). apply hash_sorted_keys_inr in Hh as (_ & _ & _ & Hall).
    rewrite Forall_forall in Hall. apply Hwf, Hall.
    rewrite (py_sorted_Permutation l). exact Hk.
  - lia.
Qed.

End Signing.

(* ================================================================== *)
(** ** Proofs: construction and the file record *)

Lemma init_auth_canonical (o : option (list string)) :
  let a := match o with Some ((_ :: _) as ks) => py_sorted (py_set_list ks) | _ => [] end in
  py_sorted (py_set_list a) = a.
Proof.
  cbv zeta. destruct o as [[|k ks]|]; try reflexivity. apply py_set_list_sorted_idem.
Qed.

Lemma init_auth_sorted_nodup (o : option (list string)) :
  let a := match o with Some ((_ :: _) as ks) => py_sorted (py_set_list ks) | _ => [] end in
  Sorted String.le a /\ NoDup a.
Proof.
  cbv zeta. destruct o as [[|k ks]|]; try (split; constructor).
  split; [apply py_sorted_Sorted|]. rewrite py_sorted_Permutation. apply NoDup_remove_dups.
Qed.

Lemma b64_field_roundtrip (o : option bytes) :
  (o = None \/ exists b, o = Some b /\ b <> []) ->
  b64decode_or_none (b64_or_none o) = Some o.
Proof.
  intros [->|(b & -> & Hb)]; [reflexivity|].
  destruct b as [|x b]; [congruence|]. cbn [b64_or_none truthy_bytes].
  unfold b64decode_or_none. rewrite (b64encode_nonempty (x :: b) Hb).
  rewrite b64decode_b64encode. reflexivity.
Qed.

Lemma b64_field_decode (o : option bytes) :
  b64decode_or_none (b64_or_none o) = Some (match o with Some (b :: l) => Some (b :: l) | _ => None end).
Proof.
  destruct o as [[|b bs]|]; try reflexivity.
  apply (b64_field_roundtrip (Some (b :: bs))). right. exists (b :: bs). split; [reflexivity|discriminate].
Qed.

Lemma SignerInfo_dict_roundtrip (ss : list SignerInfo.t) :
  map SignerInfo_from_dict (map SignerInfo_to_dict ss) = ss.
Proof.
  rewrite map_map. induction ss as [|[pk sg] ss IH]; [reflexivity|].
  cbn. rewrite IH. reflexivity.
Qed.

(** C10: writing a transaction with [to_dict_for_file] and reading it back
    with [from_dict_for_file] gives the same transaction, hence the same
    canonical digest, when its contract code and argument bytes are each
    absent or non-empty and its authorized key list is in the canonical
    (deduplicated, sorted) form that the constructor always produces. *)
Theorem file_dict_roundtrip (now_ns : Z) (tx : Transaction) :
  py_sorted (py_set_list (authorized_public_keys_hex tx)) = authorized_public_keys_hex tx ->
  (contract_code_bytes tx = None \/ exists b, contract_code_bytes tx = Some b /\ b <> []) ->
  (arguments_bytes tx = None \/ exists b, arguments_bytes tx = Some b /\ b <> []) ->
  from_dict_for_file now_ns (to_dict_for_file tx) = Some tx /\
  (forall sha256 : bytes -> bytes, exists tx',
     from_dict_for_file now_ns (to_dict_for_file tx) = Some tx' /\
     calculate_hash sha256 tx' = calculate_hash sha256 tx).
Proof.
  intros Hauth Hc Ha.
  assert (Hrt : from_dict_for_file now_ns (to_dict_for_file tx) = Some tx).
  { unfold from_dict_for_file, to_dict_for_file. cbn [f_contract_code_bytes_b64 f_arguments_bytes_b64].
    rewrite (b64_field_roundtrip _ Hc), (b64_field_roundtrip _ Ha).
    f_equal. cbn. rewrite SignerInfo_dict_roundtrip. unfold Transaction_init.
    destruct tx as [i ts fr pk sg ty to am fe cc tg fn ar rs au ss]. cbn in *.
    f_equal.
    - destruct au as [|k ks]; [reflexivity|]. unfold py_sorted, py_set_list in *. exact Hauth.
    - destruct ss; reflexivity. }
  split; [exact Hrt|]. intros sha. exists tx. split; [exact Hrt|reflexivity].
Qed.

(** C8, as the code has it: the constructor checks nothing.  Whatever the
    threshold, key list and kind-specific fields, it builds a transaction
    holding them, the authorized keys deduplicated and sorted. *)
Theorem Transaction_init_never_validates (now_ns : Z) (from0 : string) (ts0 : option Z)
    (to0 : option string) (amount0 fee0 : Z) (code0 : option bytes) (target0 : option string)
    (fname0 : option string) (args0 : option bytes) (pk0 sig0 : option string) (m0 : Z)
    (keys0 : option (list string)) (signers0 : option (list SignerInfo.t)) (ty0 : string)
    (id0 : option string) :
  let tx := Transaction_init now_ns from0 ts0 to0 amount0 fee0 code0 target0 fname0 args0
              pk0 sig0 m0 keys0 signers0 ty0 id0 in
  required_signatures tx = m0 /\ tx_type tx = ty0 /\ to_address_hex tx = to0 /\
  contract_code_bytes tx = code0 /\ target_contract_address_hex tx = target0 /\
  function_name tx = fname0 /\ arguments_bytes tx = args0 /\
  (forall k, k ∈ authorized_public_keys_hex tx <->
             exists ks, keys0 = Some ks /\ k ∈ ks) /\
  Sorted String.le (authorized_public_keys_hex tx) /\ NoDup (authorized_public_keys_hex tx).
Proof.
  cbv zeta. cbn. split; [reflexivity|]. do 6 (split; [reflexivity|]).
  split; [|apply init_auth_sorted_nodup].
  intros k. destruct keys0 as [[|k0 ks]|].
  - split; [intros Hk; inversion Hk|]. intros (ks & Hks & Hk). injection Hks as <-.
    inversion Hk.
  - rewrite py_sorted_Permutation. unfold py_set_list. rewrite elem_of_remove_dups.
    split; [intros Hk; eexists; split; [reflexivity|exact Hk]|].
    intros (ks' & Hks & Hk). injection Hks as <-. exact Hk.
  - split; [intros Hk; inversion Hk|]. intros (ks & Hks & _). discriminate.
Qed.

(** C8 does not hold: M = 3 with a single (duplicated, malformed) key and a
    contract deployment without code is accepted by the constructor. *)
Lemma Transaction_init_accepts_invalid_group :
  let tx := Transaction_init 0 "ab" (Some 1) None 0 0 None None None None None None
              3 (Some ["k"; "k"]) None TX_CONTRACT_DEPLOY None in
  required_signatures tx = 3 /\ authorized_public_keys_hex tx = ["k"] /\
  tx_type tx = TX_CONTRACT_DEPLOY /\ contract_code_bytes tx = None /\
  ~ key_wellformed "k".
Proof.
  cbv zeta. split; [reflexivity|]. split; [reflexivity|].
  split; [reflexivity|]. split; [reflexivity|].
  intros (kb & Hf & _). discriminate.
Qed.

(** C9, as the code has it: [to_dict_for_file] uses two encodings.  The
    identifier, the public key, the signature, the authorized keys and the
    signer entries are the hex text the transaction stores, passed through
    and read back unchanged; the contract code and the argument bytes are
    written in base64, which decodes back to them, an empty byte string
    being left out and read back as [None]. *)
Theorem to_dict_for_file_encodings (tx : Transaction) :
  let d := to_dict_for_file tx in
  f_id_hex d = id_hex tx /\
  f_public_key_hex d = public_key_hex tx /\
  f_signature_hex d = signature_hex tx /\
  f_authorized_public_keys_hex d = authorized_public_keys_hex tx /\
  map SignerInfo_from_dict (f_signers d) = signers tx /\
  b64decode_or_none (f_contract_code_bytes_b64 d) =
    Some (match contract_code_bytes tx with Some (b :: l) => Some (b :: l) | _ => None end) /\
  b64decode_or_none (f_arguments_bytes_b64 d) =
    Some (match arguments_bytes tx with Some (b :: l) => Some (b :: l) | _ => None end) /\
  (forall b, contract_code_bytes tx = Some b -> b <> [] ->
     f_contract_code_bytes_b64 d = Some (b64encode b)) /\
  (forall b, arguments_bytes tx = Some b -> b <> [] ->
     f_arguments_bytes_b64 d = Some (b64encode b)).
Proof.
  cbv zeta. unfold to_dict_for_file. cbn [f_id_hex f_public_key_hex f_signature_hex
    f_authorized_public_keys_hex f_signers f_contract_code_bytes_b64 f_arguments_bytes_b64].
  do 4 (split; [reflexivity|]).
  split; [apply SignerInfo_dict_roundtrip|].
  split; [apply b64_field_decode|]. split; [apply b64_field_decode|].
  split; intros [|x b] Hb Hne; try congruence; rewrite Hb; reflexivity.
Qed.

(** C9 does not hold: one exported record renders the single byte [0x01]
    as the hex text ["01"] in its identifier field and as the base64 text
    ["AQ=="] in its contract code field. *)
Lemma to_dict_for_file_mixed_encodings :
  let tx := Transaction_init 0 "ab" (Some 1) None 0 0 (Some [Byte.x01]) None None None
              None None 0 None None TX_CONTRACT_DEPLOY (Some (bytes_hex [Byte.x01])) in
  let d := to_dict_for_file tx in
  f_id_hex d = Some "01" /\ fromhex "01" = Some [Byte.x01] /\
  f_contract_code_bytes_b64 d = Some "AQ==" /\ b64decode "AQ==" = Some [Byte.x01] /\
  "01" <> "AQ==".
Proof.
  cbv zeta. split; [reflexivity|]. split; [reflexivity|].
  split; [reflexivity|]. split; [reflexivity|]. discriminate.
Qed.

(* ================================================================== *)
(** ** Sample evaluations *)

Example b64encode_test :
  b64encode [Byte.x01] = "AQ==" /\ b64encode [Byte.x66; Byte.x6f; Byte.x6f] = "Zm9v".
Proof. split; reflexivity. Qed.

Example b64decode_test : b64decode "Zm9vYg==" = Some [Byte.x66; Byte.x6f; Byte.x6f; Byte.x62].
Proof. reflexivity. Qed.

Example fromhex_test :
  fromhex "04 aB" = Some [Byte.x04; Byte.xab] /\ bytes_hex [Byte.x04; Byte.xab] = "04ab".
Proof. split; reflexivity. Qed.

(* ================================================================== *)
(** ** Instances of the theorems on concrete transactions

    The primitives are instantiated with the identity as hash, public keys
    equal to the key names, an empty signature and a verifier that accepts
    everything. *)

Lemma add_signatures_digest_and_id_stable_witness :
  let sign := fun (_ : string) (d : bytes) => Byte.x01 :: d in
  let base := Transaction_init 0 "ab" (Some 1) (Some "cd") 5 0 None None None None None None
                2 (Some ["k1"; "k2"]) (Some [SignerInfo.mk "k1" "01"]) TX_STANDARD None in
  let tx := set_id_hex (Some (calculate_hash (fun b => b) base)) base in
  let r := add_signatures (fun b => b) string (fun k => k) sign ["k2"] tx in
  r.2 = Returned true /\ length (signers r.1) = 2%nat /\
  calculate_hash (fun b => b) r.1 = calculate_hash (fun b => b) tx /\
  id_hex r.1 = Some (calculate_hash (fun b => b) base).
Proof.
  intros sign base tx r.
  split; [vm_compute; reflexivity|]. split; [vm_compute; reflexivity|].
  destruct (add_signatures_digest_and_id_stable (fun b => b) string (fun k => k) sign ["k2"] tx)
    as (_ & Hd & Hid).
  split; [exact Hd|].
  apply Hid; [reflexivity|vm_compute; discriminate].
Defined.

Lemma verify_signatures_group_mode_witness :
  let tx := Transaction_init 0 "ab" (Some 1) None 0 0 None None None None None None
              1 (Some ["k"]) (Some [SignerInfo.mk "k" "30"]) TX_STANDARD None in
  verify_signatures_python (fun b => b) (fun _ _ _ => true) tx = Some true.
Proof.
  intros tx.
  apply (proj2 (proj2 (proj2 (proj2 (proj2 (verify_signatures_group_mode (fun b => b)
    (fun _ _ _ => true) tx ltac:(vm_compute; reflexivity))))))).
  split; [vm_compute; discriminate|]. split.
  - apply (bool_decide_unpack _). vm_compute. exact I.
  - constructor; [|constructor]. split; [|reflexivity].
    apply (bool_decide_unpack _). vm_compute. exact I.
Defined.

Lemma add_signature_fixes_or_checks_id_witness :
  let tx := Transaction_init 0 "ab" (Some 1) None 0 0 None None None None None None
              1 (Some ["k"]) None TX_STANDARD None in
  exists tx1,
    add_signature (fun b => b) string (fun k => k) (fun _ _ => []) "k" tx = (tx1, Returned true) /\
    id_hex tx1 = Some (calculate_hash (fun b => b) tx).
Proof.
  intros tx.
  destruct (proj1 (add_signature_fixes_or_checks_id (fun b => b) string (fun k => k)
    (fun _ _ => []) "k" tx ltac:(reflexivity)
    ltac:(apply (bool_decide_unpack _); vm_compute; exact I)
    ltac:(apply (bool_decide_unpack _); vm_compute; exact I)) eq_refl)
    as (tx1 & E & I & _).
  exists tx1. split; [exact E|exact I].
Defined.

Lemma add_signature_unauthorized_unchanged_witness :
  let tx := Transaction_init 0 "ab" (Some 1) None 0 0 None None None None None None
              1 (Some ["k"]) None TX_STANDARD None in
  add_signature (fun b => b) string (fun k => k) (fun _ _ => []) "j" tx
    = (tx, Raised UnauthorizedSigner).
Proof.
  intros tx.
  apply (add_signature_unauthorized_unchanged (fun b => b) string (fun k => k)
    (fun _ _ => []) "j" tx); [reflexivity|].
  apply (bool_decide_unpack _). vm_compute. exact I.
Defined.

Lemma add_signature_idempotent_witness :
  let tx := Transaction_init 0 "ab" (Some 1) None 0 0 None None None None None None
              1 (Some ["k"]) (Some [SignerInfo.mk "k" "30"]) TX_STANDARD None in
  add_signature (fun b => b) string (fun k => k) (fun _ _ => []) "k" tx = (tx, Returned true).
Proof.
  intros tx.
  apply (proj1 (add_signature_idempotent (fun b => b) string (fun k => k)
    (fun _ _ => []) "k" tx)); [reflexivity|..];
    apply (bool_decide_unpack _); vm_compute; exact I.
Defined.

Lemma derive_multisig_address_canonical_witness :
  let l := ["0422222222222222222222222222222222222222222222222222222222222222222222222222222222222222222222222222222222222222222222222222222222"; "0411111111111111111111111111111111111111111111111111111111111111111111111111111111111111111111111111111111111111111111111111111111"] in
  let l' := ["0411111111111111111111111111111111111111111111111111111111111111111111111111111111111111111111111111111111111111111111111111111111"; "0422222222222222222222222222222222222222222222222222222222222222222222222222222222222222222222222222222222222222222222222222222222"] in
  let h := match derive_multisig_address (fun b => b) 2 l with inr h => h | inl _ => "" end in
  derive_multisig_address (fun b => b) 2 l = inr h /\
  derive_multisig_address (fun b => b) 2 l = derive_multisig_address (fun b => b) 2 l' /\
  Sorted String.le (py_sorted l) /\ py_sorted l ≡ₚ l /\ byte_val (byte_of_Z 2) = 2 /\
  exists kbs : list bytes,
    Forall2 (fun k kb => fromhex k = Some kb) (py_sorted l) kbs /\
    h = bytes_hex (byte_of_Z 2 :: concat kbs).
Proof.
  intros l l' h.
  assert (Hd : derive_multisig_address (fun b => b) 2 l = inr h) by (vm_compute; reflexivity).
  destruct (derive_multisig_address_canonical (fun b => b) 2 l l' ltac:(apply perm_swap))
    as [Heq Hf].
  split; [exact Hd|]. split; [exact Heq|]. exact (Hf h Hd).
Defined.

Lemma derive_multisig_address_rejects_witness :
  exists e, derive_multisig_address (fun b => b) 2 ["04"] = inl e.
Proof.
  apply (proj1 (derive_multisig_address_rejects (fun b => b) 2 ["04"])).
  vm_compute. intros [_ H]. apply H. reflexivity.
Defined.

Lemma file_dict_roundtrip_witness :
  let tx := Transaction_init 0 "ab" (Some 1) None 0 0 (Some [Byte.x01]) None None None
              None None 1 (Some ["k"]) (Some [SignerInfo.mk "k" "30"]) TX_CONTRACT_DEPLOY
              (Some "ff") in
  from_dict_for_file 0 (to_dict_for_file tx) = Some tx.
Proof.
  intros tx.
  apply (proj1 (file_dict_roundtrip 0 tx ltac:(vm_compute; reflexivity)
    ltac:(right; exists [Byte.x01]; split; [reflexivity|discriminate])
    ltac:(left; reflexivity))).
Defined.
(* ================================================================== *)
(** ** Further properties: signing, the multi-signature workflow, the
       configuration file and DID generation *)

Section Extras.

Variable sha256 : bytes -> bytes.
Variable SigningKey : Type.
Variable key_public_hex : SigningKey -> string.
Variable ecdsa_sign : SigningKey -> bytes -> bytes.
Variable ecdsa_verify : string -> string -> bytes -> bool.

Lemma py_sorted_set_same (l l' : list string) :
  (forall k, k ∈ l <-> k ∈ l') -> py_sorted (py_set_list l) = py_sorted (py_set_list l').
Proof.
  intros H. apply py_sorted_perm. apply NoDup_Permutation; try apply NoDup_remove_dups.
  intros x. unfold py_set_list. rewrite !elem_of_remove_dups. apply H.
Qed.

Lemma nonempty_same (l l' : list string) :
  (forall k, k ∈ l <-> k ∈ l') ->
  (0 <? Z.of_nat (length l)) = (0 <? Z.of_nat (length l')).
Proof.
  destruct l as [|a l], l' as [|b l']; intros H; try reflexivity; exfalso.
  - assert (Hb : b ∈ b :: l') by (apply elem_of_cons; left; reflexivity).
    apply H in Hb. apply not_elem_of_nil in Hb. exact Hb.
  - assert (Ha : a ∈ a :: l) by (apply elem_of_cons; left; reflexivity).
    apply H in Ha. apply not_elem_of_nil in Ha. exact Ha.
Qed.

Lemma payload_agree (tx tx' : Transaction) :
  covered_fields_agree tx tx' -> payload_to_hash tx = payload_to_hash tx'.
Proof.
  intros (Hf & Hfr & Ht & Hty & Hm & Ha & Hpk & Hb).
  unfold payload_to_hash.
  rewrite (nonempty_same _ _ Ha), (py_sorted_set_same _ _ Ha).
  rewrite Hf, Hfr, Ht, Hm. rewrite Hty in Hb |- *. rewrite Hm in Hpk.
  f_equal. f_equal.
  - destruct (Z.eqb_spec (required_signatures tx') 0) as [E|E]; [rewrite (Hpk E); reflexivity|].
    destruct (public_key_hex tx), (public_key_hex tx'); rewrite ?andb_false_r; reflexivity.
  - f_equal.
    destruct (String.eqb (tx_type tx') TX_STANDARD);
      [destruct Hb as [-> ->]; reflexivity|].
    destruct (String.eqb (tx_type tx') TX_CONTRACT_DEPLOY);
      [destruct Hb as [-> ->]; reflexivity|].
    destruct (String.eqb (tx_type tx') TX_CONTRACT_CALL);
      [destruct Hb as (-> & -> & -> & ->); reflexivity|reflexivity].
Qed.

(** [calculate_hash] reads only the fields put into [payload_to_hash]: two
    transactions that agree on fee, sender, timestamp, type, threshold, the
    set of authorized keys, the public key when the threshold is 0, and the
    fields of their type get the same digest, whatever their id, signature,
    collected signers and the fields of the other types. *)
Theorem calculate_hash_covered_fields (tx tx' : Transaction) :
  covered_fields_agree tx tx' -> calculate_hash sha256 tx = calculate_hash sha256 tx'.
Proof.
  intros H. unfold calculate_hash, data_for_hashing. rewrite (payload_agree _ _ H). reflexivity.
Qed.

Lemma bytes_hex_nonempty (bs : bytes) : bs <> [] -> bytes_hex bs <> "".
Proof. destruct bs as [|b bs]; [congruence|]. intros _. cbn. discriminate. Qed.

(** [sign_single] refuses a transaction with a positive threshold and leaves
    it unchanged; otherwise, for a key whose public hex is non-empty and whose
    signatures verify, it returns [True] and a transaction whose sender and
    public key are the signer's, whose id is its own digest, and which
    [verify_signatures_python] accepts. *)
Theorem sign_single_then_verify (k : SigningKey) (tx : Transaction) :
  key_public_hex k <> "" ->
  (forall d, ecdsa_sign k d <> []) ->
  (forall d, ecdsa_verify (key_public_hex k) (bytes_hex (ecdsa_sign k d)) d = true) ->
  (0 < required_signatures tx ->
   sign_single sha256 SigningKey key_public_hex ecdsa_sign k tx = (tx, inl UseAddSignature)) /\
  (required_signatures tx <= 0 -> exists tx',
     sign_single sha256 SigningKey key_public_hex ecdsa_sign k tx = (tx', inr true) /\
     from_address_hex tx' = key_public_hex k /\
     public_key_hex tx' = Some (key_public_hex k) /\
     id_hex tx' = Some (calculate_hash sha256 tx') /\
     verify_signatures_python sha256 ecdsa_verify tx' = Some true).
Proof.
  intros Hpk Hne Hok. split.
  - intros Hm. unfold sign_single. apply Z.ltb_lt in Hm. rewrite Hm. reflexivity.
  - intros Hm. unfold sign_single.
    assert (Hm' : (0 <? required_signatures tx) = false) by (apply Z.ltb_ge; exact Hm).
    rewrite Hm'. cbv zeta.
    set (tx2 := if String.eqb (from_address_hex (set_public_key_hex (Some (key_public_hex k)) tx))
                     (key_public_hex k)
                then set_public_key_hex (Some (key_public_hex k)) tx
                else set_from_address_hex (key_public_hex k)
                       (set_public_key_hex (Some (key_public_hex k)) tx)).
    assert (H2 : from_address_hex tx2 = key_public_hex k /\
                 public_key_hex tx2 = Some (key_public_hex k) /\
                 required_signatures tx2 = required_signatures tx).
    { subst tx2. cbn. destruct (String.eqb_spec (from_address_hex tx) (key_public_hex k));
        cbn; auto. }
    destruct H2 as (Hfrom & Hpub & Hreq).
    rewrite fromhex_calculate_hash.
    set (tx' := set_signature_hex
                  (Some (bytes_hex (ecdsa_sign k (sha256 (data_for_hashing tx2)))))
                  (set_id_hex (Some (calculate_hash sha256 tx2)) tx2)).
    assert (Hd : data_for_hashing tx' = data_for_hashing tx2) by reflexivity.
    exists tx'. split; [reflexivity|].
    split; [exact Hfrom|]. split; [exact Hpub|].
    split; [unfold calculate_hash; rewrite Hd; reflexivity|].
    unfold verify_signatures_python. rewrite fromhex_calculate_hash. rewrite Hd.
    cbn [tx' set_signature_hex set_id_hex required_signatures public_key_hex signature_hex].
    rewrite Hreq, Hm', Hpub.
    rewrite (truthy_str_Some _ Hpk), (truthy_str_Some _ (bytes_hex_nonempty _ (Hne _))).
    cbn. rewrite Hok. reflexivity.
Qed.

Lemma load_wallets_map (ws : list (option string)) (l : list string) :
  load_wallets ws = Some l -> ws = map Some l.
Proof.
  revert l. induction ws as [|w ws IH]; intros l H; cbn in H.
  - injection H as <-. reflexivity.
  - destruct w as [a|]; [|discriminate]. destruct (load_wallets ws) as [l'|] eqn:E; [|discriminate].
    injection H as <-. cbn. f_equal. apply IH. reflexivity.
Qed.

Lemma derive_perm (m : Z) (l l' : list string) :
  l ≡ₚ l' -> derive_multisig_address sha256 m l = derive_multisig_address sha256 m l'.
Proof.
  intros H. unfold derive_multisig_address.
  rewrite (Permutation_length H), (py_set_list_perm _ _ H). reflexivity.
Qed.

Lemma derive_wellformed (m : Z) (l : list string) (h : string) :
  derive_multisig_address sha256 m l = inr h ->
  1 <= m <= 255 /\ m <= Z.of_nat (length l) /\ NoDup l /\ Forall key_wellformed l.
Proof.
  intros H. destruct (derive_inr_inv _ _ _ _ H) as (Hm & Hn & Hnd & kb & Hk & _).
  destruct (hash_sorted_keys_inr _ _ Hk) as (kbs & _ & _ & Hw).
  split; [lia|]. split; [lia|]. split; [exact Hnd|].
  apply Forall_forall. intros x Hx. rewrite Forall_forall in Hw. apply Hw.
  rewrite (py_sorted_Permutation l). exact Hx.
Qed.

(** A config written by [create_multisig_config] holds threshold [m], the
    sorted public keys of the wallets (all loaded, one per password, pairwise
    distinct and well formed), their count with [1 <= m <= count] and
    [m <= 255], and the address [derive_multisig_address] gives for the keys
    in wallet order. *)
Theorem create_multisig_config_ok (m : Z) (ws : list (option string)) (np : nat)
    (c : MultisigConfig.t) :
  create_multisig_config sha256 m ws np = inr c ->
  exists pubs addr,
    ws = map Some pubs /\ length ws = np /\
    c = MultisigConfig.mk (Some m) (Some (py_sorted pubs)) (Some addr)
          (Some (Z.of_nat (length pubs))) /\
    1 <= m <= 255 /\ m <= Z.of_nat (length pubs) /\ NoDup pubs /\
    Forall key_wellformed pubs /\ derive_multisig_address sha256 m pubs = inr addr.
Proof.
  unfold create_multisig_config. intros H.
  destruct (Nat.eqb_spec (length ws) np) as [Hnp|]; [|discriminate].
  destruct ((m <=? 0) || (Z.of_nat (length ws) <? m)); [discriminate|]. cbn in H.
  destruct (load_wallets ws) as [pubs|] eqn:Ew; [|discriminate].
  destruct (negb _); [discriminate|].
  destruct (derive_multisig_address sha256 m (py_sorted pubs)) as [e|addr] eqn:Ed;
    [discriminate|].
  injection H as <-.
  rewrite (derive_perm m _ _ (py_sorted_Permutation pubs)) in Ed.
  destruct (derive_wellformed _ _ _ Ed) as (Hm & Hn & Hnd & Hw).
  exists pubs, addr. split; [apply load_wallets_map; exact Ew|]. split; [exact Hnp|].
  rewrite (Permutation_length (py_sorted_Permutation pubs)).
  repeat split; assumption || lia.
Qed.

(** A config written by [create_multisig_config] is accepted by
    [load_multisig_config], which returns it unchanged. *)
Theorem create_then_load (m : Z) (ws : list (option string)) (np : nat) (c : MultisigConfig.t) :
  create_multisig_config sha256 m ws np = inr c ->
  load_multisig_config sha256 (Some c) = inr c.
Proof.
  intros H. destruct (create_multisig_config_ok _ _ _ _ H)
    as (pubs & addr & _ & _ & -> & Hm & Hn & _ & _ & Hd).
  unfold load_multisig_config. cbn.
  rewrite (derive_perm m _ _ (py_sorted_Permutation pubs)), Hd.
  rewrite (Permutation_length (py_sorted_Permutation pubs)).
  replace ((m <=? 0) || (Z.of_nat (length pubs) <? m)) with false
    by (symmetry; apply orb_false_iff; split; [apply Z.leb_gt|apply Z.ltb_ge]; lia).
  rewrite Z.eqb_refl, String.eqb_refl. reflexivity.
Qed.

(** A config accepted by [load_multisig_config] has all four fields, a
    threshold with [1 <= m <= 255] and [m <= n], [n] equal to the number of
    keys, pairwise distinct well-formed keys, and an address equal to the one
    derived from them. *)
Theorem load_multisig_config_ok (f : option MultisigConfig.t) (c : MultisigConfig.t) :
  load_multisig_config sha256 f = inr c ->
  f = Some c /\
  exists m keys addr n,
    c = MultisigConfig.mk (Some m) (Some keys) (Some addr) (Some n) /\
    1 <= m <= 255 /\ m <= n /\ n = Z.of_nat (length keys) /\ NoDup keys /\
    Forall key_wellformed keys /\ derive_multisig_address sha256 m keys = inr addr.
Proof.
  unfold load_multisig_config. intros H.
  destruct f as [[[m|] [keys|] [addr|] [n|]]|]; cbn in H; try discriminate.
  destruct ((m <=? 0) || (n <? m)) eqn:Emn; [discriminate|].
  destruct (Z.eqb_spec (Z.of_nat (length keys)) n) as [Hn|]; [|discriminate]. cbn in H.
  destruct (derive_multisig_address sha256 m keys) as [e|a] eqn:Ed; [discriminate|].
  destruct (String.eqb_spec a addr) as [<-|]; [|discriminate].
  injection H as <-. split; [reflexivity|].
  destruct (derive_wellformed _ _ _ Ed) as (Hm & Hl & Hnd & Hw).
  exists m, keys, a, n. repeat split; assumption || lia.
Qed.

(** [load_multisig_config] does not depend on the order of the key list: a
    config it accepts is still accepted with the keys permuted. *)
Theorem load_multisig_config_key_order (m n : option Z) (keys keys' : list string)
    (addr : option string) :
  keys ≡ₚ keys' ->
  load_multisig_config sha256 (Some (MultisigConfig.mk m (Some keys) addr n)) =
    inr (MultisigConfig.mk m (Some keys) addr n) ->
  load_multisig_config sha256 (Some (MultisigConfig.mk m (Some keys') addr n)) =
    inr (MultisigConfig.mk m (Some keys') addr n).
Proof.
  intros Hp. unfold load_multisig_config. cbn.
  rewrite (Permutation_length Hp). destruct m as [m|], addr as [a|], n as [n|]; try discriminate.
  rewrite (derive_perm m _ _ Hp).
  destruct ((m <=? 0) || (n <? m)); [discriminate|].
  destruct (negb _); [discriminate|].
  destruct (derive_multisig_address sha256 m keys'); [discriminate|].
  destruct (String.eqb _ _); [reflexivity|discriminate].
Qed.

Lemma hex_value_not_space (c : Ascii.ascii) (v : Z) :
  hex_value c = Some v -> py_isspace c = false.
Proof.
  unfold hex_value, py_isspace. set (n := ascii_val c). clearbody n. intros H.
  destruct (Z.leb_spec 48 n), (Z.leb_spec n 57), (Z.leb_spec 97 n), (Z.leb_spec n 102),
    (Z.leb_spec 65 n), (Z.leb_spec n 70); cbn in H; try discriminate;
  destruct (Z.eqb_spec n 32), (Z.leb_spec 9 n), (Z.leb_spec n 13); cbn; reflexivity || lia.
Qed.

Lemma unhexlify_fromhex_length (s : string) :
  forall b, unhexlify s = Some b -> fromhex s = Some b /\ (2 * length b = String.length s)%nat.
Proof.
  induction s as [s IH] using (induction_ltof1 _ String.length); unfold ltof in IH.
  intros b H. destruct s as [|c1 [|c2 s']]; cbn in H.
  - injection H as <-. split; reflexivity.
  - discriminate.
  - destruct (hex_value c1) as [h|] eqn:E1; [|discriminate].
    destruct (hex_value c2) as [l|] eqn:E2; [|discriminate].
    destruct (unhexlify s') as [r|] eqn:Er; [|discriminate].
    injection H as <-.
    destruct (IH s' ltac:(cbn; lia) r Er) as [Hf Hl].
    cbn. rewrite (hex_value_not_space _ _ E1), E1, E2, Hf.
    split; [do 3 f_equal; lia|cbn; lia].
Qed.

(** [generate_did_key_from_public_key_hex] never fails with the byte-level
    error (the format check already guarantees 65 bytes starting with 0x04);
    a DID it returns comes from a 130-character key starting with "04" that
    is a well-formed uncompressed key, and is "did:key:" followed by the
    base58btc encoding of the wrapped key bytes. *)
Theorem generate_did_key_ok (multicodec_wrap : bytes -> option bytes)
    (multibase_base58btc : bytes -> string) (h : string) :
  generate_did_key_from_public_key_hex multicodec_wrap multibase_base58btc h
    <> inl DidInvalidBytes /\
  forall s,
    generate_did_key_from_public_key_hex multicodec_wrap multibase_base58btc h = inr s ->
    String.prefix "04" h = true /\ String.length h = 130%nat /\ key_wellformed h /\
    exists pb w, unhexlify h = Some pb /\ multicodec_wrap pb = Some w /\
                 s = String.append "did:key:" (multibase_base58btc w).
Proof.
  unfold generate_did_key_from_public_key_hex.
  destruct (String.prefix "04" h) eqn:Ep; [|split; [discriminate|intros s Hs; discriminate]].
  destruct (Nat.eqb_spec (String.length h) 130) as [Hl|];
    [|split; [discriminate|intros s Hs; discriminate]].
  cbn [negb orb].
  destruct (ascii_only h); [|split; [discriminate|intros s Hs; discriminate]]. cbn [negb].
  destruct (unhexlify h) as [pb|] eqn:Eu; [|split; [discriminate|intros s Hs; discriminate]].
  destruct (unhexlify_fromhex_length _ _ Eu) as [Hf Hlen].
  assert (H65 : length pb = 65%nat) by lia.
  pose proof (prefix04_fromhex_head _ _ Ep Hf) as Hhd.
  assert (Hb : (negb (Nat.eqb (length pb) 65) ||
                negb (match pb with b :: _ => Byte.eqb b Byte.x04 | [] => false end)) = false).
  { rewrite H65. destruct pb as [|b pb]; [discriminate|]. cbn in Hhd. injection Hhd as ->.
    reflexivity. }
  rewrite Hb.
  destruct (multicodec_wrap pb) as [w|] eqn:Ew; [|split; [discriminate|intros s Hs; discriminate]].
  split; [discriminate|]. intros s Hs. injection Hs as <-.
  split; [reflexivity|]. split; [exact Hl|]. split.
  - exists pb. auto.
  - exists pb, w. auto.
Qed.

Lemma file_roundtrip_shape (now_ns : Z) (tx : Transaction) :
  from_dict_for_file now_ns (to_dict_for_file tx) =
  Some (Transaction_init now_ns (from_address_hex tx) (Some (timestamp tx)) (to_address_hex tx)
          (amount tx) (fee tx)
          (match contract_code_bytes tx with Some (b :: l) => Some (b :: l) | _ => None end)
          (target_contract_address_hex tx) (function_name tx)
          (match arguments_bytes tx with Some (b :: l) => Some (b :: l) | _ => None end)
          (public_key_hex tx) (signature_hex tx) (required_signatures tx)
          (Some (authorized_public_keys_hex tx)) (Some (signers tx)) (tx_type tx) (id_hex tx)).
Proof.
  unfold from_dict_for_file, to_dict_for_file. cbn [f_contract_code_bytes_b64 f_arguments_bytes_b64].
  rewrite !b64_field_decode. cbn. rewrite SignerInfo_dict_roundtrip. reflexivity.
Qed.

Lemma init_auth_elem (l : list string) (k : string) :
  k ∈ match Some l with Some ((_ :: _) as ks) => py_sorted (py_set_list ks) | _ => [] end <->
  k ∈ l.
Proof.
  destruct l as [|a l]; [reflexivity|]. cbv iota.
  rewrite (py_sorted_Permutation _). unfold py_set_list. apply elem_of_remove_dups.
Qed.

Lemma init_signers_id (ss : list SignerInfo.t) :
  match Some ss with Some ((_ :: _) as l) => l | _ => [] end = ss.
Proof. destruct ss; reflexivity. Qed.

(** Reading back the dict written by [to_dict_for_file] always succeeds and
    keeps the id, the signers and the set of authorized keys; the digest is
    kept when neither the contract code nor the arguments are empty bytes. *)
Theorem file_roundtrip_any_tx (now_ns : Z) (tx : Transaction) :
  exists tx', from_dict_for_file now_ns (to_dict_for_file tx) = Some tx' /\
    id_hex tx' = id_hex tx /\ signers tx' = signers tx /\
    (forall k, k ∈ authorized_public_keys_hex tx' <-> k ∈ authorized_public_keys_hex tx) /\
    (contract_code_bytes tx <> Some [] -> arguments_bytes tx <> Some [] ->
     calculate_hash sha256 tx' = calculate_hash sha256 tx).
Proof.
  eexists. split; [apply file_roundtrip_shape|]. cbn.
  split; [reflexivity|]. split; [apply init_signers_id|]. split; [intros k; apply init_auth_elem|].
  intros Hc Ha. unfold calculate_hash, data_for_hashing.
  rewrite (payload_agree _ tx); [reflexivity|]. cbn.
  do 5 (split; [reflexivity|]). split; [intros k; apply init_auth_elem|].
  split; [reflexivity|].
  destruct (contract_code_bytes tx) as [[|c cs]|]; [exfalso; apply Hc; reflexivity| |];
  destruct (arguments_bytes tx) as [[|a as_]|]; try (exfalso; apply Ha; reflexivity);
  cbn; repeat (destruct (String.eqb _ _)); repeat split.
Qed.

Lemma string_length_append (a b : string) :
  String.length (String.append a b) = (String.length a + String.length b)%nat.
Proof. induction a as [|c a IH]; [reflexivity|]. simpl. rewrite IH. reflexivity. Qed.

Lemma str_concat_length (sep : string) (l : list string) :
  l <> [] ->
  (String.length (str_concat sep l) + String.length sep =
   sum_list (map (fun x => String.length x + String.length sep) l))%nat.
Proof.
  induction l as [|x l IH]; intros Hne; [congruence|].
  destruct l as [|y l].
  - cbn. unfold id. lia.
  - change (str_concat sep (x :: y :: l))
      with (String.append x (String.append sep (str_concat sep (y :: l)))).
    rewrite !string_length_append. cbn [map sum_list].
    cbn [map sum_list] in IH. specialize (IH ltac:(discriminate)). unfold id in *. lia.
Qed.

Lemma sum_list_app (l l' : list nat) : sum_list (l ++ l') = (sum_list l + sum_list l')%nat.
Proof. induction l as [|x l IH]; [reflexivity|]. cbn [app]. change (sum_list (x :: l ++ l')) with (x + sum_list (l ++ l'))%nat. change (sum_list (x :: l)) with (x + sum_list l)%nat. lia. Qed.

Lemma sum_list_perm (l l' : list nat) : l ≡ₚ l' -> sum_list l = sum_list l'.
Proof. induction 1; cbn; lia. Qed.

Lemma json_dumps_sorted_length (d : list (string * jvalue)) :
  d <> [] ->
  (String.length (json_dumps_sorted d) + 1 =
   2 + sum_list (map (fun kv => String.length (json_quote kv.1) + 1 +
                                String.length (json_value kv.2) + 1) d))%nat.
Proof.
  intros Hne. unfold json_dumps_sorted. rewrite !string_length_append.
  assert (Hms : merge_sort item_key_le d ≡ₚ d) by apply merge_sort_Permutation.
  assert (Hne' : map (fun kv => String.append (json_quote kv.1)
                                  (String.append ":" (json_value kv.2)))
                   (merge_sort item_key_le d) <> []).
  { intros He. apply map_eq_nil in He. apply Permutation_length in Hms.
    rewrite He in Hms. destruct d; [congruence|discriminate]. }
  pose proof (str_concat_length "," _ Hne') as Hc. cbn [String.length] in Hc |- *.
  rewrite map_map in Hc.
  rewrite (sum_list_perm _ _ (Permutation_map _ Hms)) in Hc.
  match type of Hc with
  | _ = sum_list ?S =>
      assert (Hm : S = map (fun kv : string * jvalue => String.length (json_quote kv.1) + 1 +
                                String.length (json_value kv.2) + 1)%nat d)
  end.
  { apply map_ext. intros kv. rewrite !string_length_append. cbn [String.length]. lia. }
  rewrite Hm in Hc. lia.
Qed.

Lemma list_byte_of_string_inj (a b : string) :
  String.list_byte_of_string a = String.list_byte_of_string b -> a = b.
Proof.
  intros H. rewrite <- (String.string_of_list_byte_of_string a),
    <- (String.string_of_list_byte_of_string b), H. reflexivity.
Qed.

(** A deployment with empty contract code does not survive the file: read
    back, its code is [None] and the bytes it hashes differ, so its digest is
    computed over different data. *)
Theorem file_roundtrip_drops_empty_code (now_ns : Z) (tx : Transaction) :
  tx_type tx = TX_CONTRACT_DEPLOY -> contract_code_bytes tx = Some [] ->
  exists tx', from_dict_for_file now_ns (to_dict_for_file tx) = Some tx' /\
    contract_code_bytes tx' = None /\ data_for_hashing tx' <> data_for_hashing tx.
Proof.
  intros Hty Hc. eexists. split; [apply file_roundtrip_shape|]. rewrite Hc.
  split; [reflexivity|]. intros Hd. apply list_byte_of_string_inj in Hd.
  unfold payload_to_hash in Hd. cbn [Transaction_init tx_type contract_code_bytes
    public_key_hex required_signatures fee from_address_hex timestamp amount
    authorized_public_keys_hex] in Hd.
  rewrite Hc, Hty in Hd.
  rewrite (nonempty_same _ (authorized_public_keys_hex tx) (init_auth_elem _)),
    (py_sorted_set_same _ (authorized_public_keys_hex tx) (init_auth_elem _)) in Hd.
  assert (E1 : String.eqb TX_CONTRACT_DEPLOY TX_STANDARD = false) by reflexivity.
  assert (E2 : String.eqb TX_CONTRACT_DEPLOY TX_CONTRACT_DEPLOY = true) by reflexivity.
  rewrite E1, E2 in Hd. cbn [opt_b64_field app] in Hd.
  match type of Hd with
  | json_dumps_sorted (?h1 :: ?h2 :: ?h3 :: ?h4 :: ?P ++ ?am :: ?M) =
    json_dumps_sorted (_ :: _ :: _ :: _ :: _ ++ ?cc :: _ :: _) =>
      apply (f_equal (fun s => String.length s + 1)%nat) in Hd;
      rewrite !json_dumps_sorted_length in Hd by discriminate;
      cbn [map sum_list] in Hd; rewrite !map_app, !sum_list_app in Hd;
      cbn [map sum_list] in Hd; unfold id in Hd; lia
  end.
Qed.


Lemma file_roundtrip_canonical (now_ns : Z) (tx : Transaction) :
  py_sorted (py_set_list (authorized_public_keys_hex tx)) = authorized_public_keys_hex tx ->
  contract_code_bytes tx = None -> arguments_bytes tx = None ->
  from_dict_for_file now_ns (to_dict_for_file tx) = Some tx.
Proof.
  intros Hauth Hc Ha. rewrite file_roundtrip_shape, Hc, Ha. f_equal.
  destruct tx as [i ts fr pk sg ty to am fe cc tg fn ar rs au ss]. cbn in *. subst.
  unfold Transaction_init. f_equal.
  - destruct au as [|k ks]; [reflexivity|]. exact Hauth.
  - destruct ss; reflexivity.
Qed.

Lemma set_id_hex_same (v : option string) (tx : Transaction) :
  id_hex tx = v -> set_id_hex v tx = tx.
Proof. intros <-. destruct tx. reflexivity. Qed.

Lemma multisig_sign_tx_step (now_ns : Z) (k : SigningKey) (tx : Transaction) :
  py_sorted (py_set_list (authorized_public_keys_hex tx)) = authorized_public_keys_hex tx ->
  contract_code_bytes tx = None -> arguments_bytes tx = None ->
  0 < required_signatures tx ->
  id_hex tx = Some (calculate_hash sha256 tx) ->
  key_public_hex k ∈ authorized_public_keys_hex tx ->
  (forall d, ecdsa_verify (key_public_hex k) (bytes_hex (ecdsa_sign k d)) d = true) ->
  NoDup (signer_keys (signers tx)) ->
  Forall (fun s => SignerInfo.public_key_hex s ∈ authorized_public_keys_hex tx /\
                   ecdsa_verify (SignerInfo.public_key_hex s) (SignerInfo.signature_hex s)
                     (sha256 (data_for_hashing tx)) = true) (signers tx) ->
  exists tx',
    multisig_sign_tx sha256 SigningKey key_public_hex ecdsa_sign now_ns k (to_dict_for_file tx)
      = to_dict_for_file tx' /\
    data_for_hashing tx' = data_for_hashing tx /\
    authorized_public_keys_hex tx' = authorized_public_keys_hex tx /\
    required_signatures tx' = required_signatures tx /\ id_hex tx' = id_hex tx /\
    contract_code_bytes tx' = None /\ arguments_bytes tx' = None /\
    NoDup (signer_keys (signers tx')) /\
    Forall (fun s => SignerInfo.public_key_hex s ∈ authorized_public_keys_hex tx /\
                     ecdsa_verify (SignerInfo.public_key_hex s) (SignerInfo.signature_hex s)
                       (sha256 (data_for_hashing tx)) = true) (signers tx') /\
    key_public_hex k ∈ signer_keys (signers tx') /\
    (forall x, x ∈ signer_keys (signers tx) -> x ∈ signer_keys (signers tx')).
Proof.
  intros Hauth Hc Ha Hm Hid Hk Hok Hnd Hall.
  unfold multisig_sign_tx. rewrite (file_roundtrip_canonical _ _ Hauth Hc Ha).
  unfold add_signature.
  assert (Hms : is_multisig tx = true).
  { unfold is_multisig. apply andb_true_iff. split; [apply Z.ltb_lt; exact Hm|].
    apply Z.ltb_lt. destruct (authorized_public_keys_hex tx);
      [apply not_elem_of_nil in Hk; contradiction|cbn; lia]. }
  rewrite Hms. cbn [negb].
  rewrite (proj2 (py_in_spec _ _) Hk). cbn [negb].
  destruct (existsb (fun s => String.eqb (SignerInfo.public_key_hex s) (key_public_hex k))
              (signers tx)) eqn:Ex.
  - exists tx. apply existsb_signer_key in Ex. repeat split; auto.
  - assert (Hchk : (if negb (truthy_str (id_hex tx))
                    then Some (set_id_hex (Some (calculate_hash sha256 tx)) tx)
                    else if bool_decide (id_hex tx = Some (calculate_hash sha256 tx)) then Some tx
                    else None) = Some tx).
    { rewrite (set_id_hex_same _ _ Hid).
      destruct (truthy_str (id_hex tx)); [|reflexivity]. cbn [negb].
      rewrite bool_decide_eq_true_2 by exact Hid. reflexivity. }
    rewrite Hchk, fromhex_calculate_hash.
    set (si := SignerInfo.mk (key_public_hex k)
                 (bytes_hex (ecdsa_sign k (sha256 (data_for_hashing tx))))).
    assert (Hp : sort_signers (signers tx ++ [si]) ≡ₚ signers tx ++ [si])
      by apply merge_sort_Permutation.
    assert (Hnk : key_public_hex k ∉ signer_keys (signers tx)).
    { intros Hin. apply existsb_signer_key in Hin. congruence. }
    eexists. split; [reflexivity|]. cbn [set_signers data_for_hashing
      authorized_public_keys_hex required_signatures id_hex contract_code_bytes
      arguments_bytes signers].
    split; [reflexivity|]. do 5 (split; [assumption || reflexivity|]).
    unfold signer_keys. rewrite Hp. fold (signer_keys (signers tx ++ [si])).
    split; [|split; [|split]].
    + unfold signer_keys. rewrite map_app. cbn. apply NoDup_app. split; [exact Hnd|].
      split; [|apply NoDup_singleton]. intros x Hx Hx'. apply list_elem_of_singleton in Hx'.
      subst x. contradiction.
    + apply Forall_app. split; [exact Hall|]. apply Forall_singleton. cbn. split; [exact Hk|].
      apply Hok.
    + unfold signer_keys. rewrite map_app. apply elem_of_app. right. cbn. left.
    + intros x Hx. apply sort_signers_keys. unfold signer_keys. rewrite map_app.
      apply elem_of_app. left. exact Hx.
Qed.

Lemma multisig_sign_sessions_inv (now_ns : Z) (ks : list SigningKey) :
  forall tx : Transaction,
  py_sorted (py_set_list (authorized_public_keys_hex tx)) = authorized_public_keys_hex tx ->
  contract_code_bytes tx = None -> arguments_bytes tx = None ->
  0 < required_signatures tx ->
  id_hex tx = Some (calculate_hash sha256 tx) ->
  (forall k, k ∈ ks -> key_public_hex k ∈ authorized_public_keys_hex tx /\
     forall d, ecdsa_verify (key_public_hex k) (bytes_hex (ecdsa_sign k d)) d = true) ->
  NoDup (signer_keys (signers tx)) ->
  Forall (fun s => SignerInfo.public_key_hex s ∈ authorized_public_keys_hex tx /\
                   ecdsa_verify (SignerInfo.public_key_hex s) (SignerInfo.signature_hex s)
                     (sha256 (data_for_hashing tx)) = true) (signers tx) ->
  exists tx',
    multisig_sign_sessions sha256 SigningKey key_public_hex ecdsa_sign now_ns ks
      (to_dict_for_file tx) = to_dict_for_file tx' /\
    data_for_hashing tx' = data_for_hashing tx /\
    authorized_public_keys_hex tx' = authorized_public_keys_hex tx /\
    required_signatures tx' = required_signatures tx /\ id_hex tx' = id_hex tx /\
    contract_code_bytes tx' = None /\ arguments_bytes tx' = None /\
    NoDup (signer_keys (signers tx')) /\
    Forall (fun s => SignerInfo.public_key_hex s ∈ authorized_public_keys_hex tx /\
                     ecdsa_verify (SignerInfo.public_key_hex s) (SignerInfo.signature_hex s)
                       (sha256 (data_for_hashing tx)) = true) (signers tx') /\
    (forall k, k ∈ ks -> key_public_hex k ∈ signer_keys (signers tx')) /\
    (forall x, x ∈ signer_keys (signers tx) -> x ∈ signer_keys (signers tx')).
Proof.
  induction ks as [|k ks IH]; intros tx Hauth Hc Ha Hm Hid Hks Hnd Hall.
  - exists tx. repeat split; auto. intros k Hk. apply not_elem_of_nil in Hk. contradiction.
  - destruct (Hks k ltac:(apply elem_of_cons; left; reflexivity)) as [Hk Hok].
    destruct (multisig_sign_tx_step now_ns k tx Hauth Hc Ha Hm Hid Hk Hok Hnd Hall)
      as (tx1 & Hd1 & Hdat1 & Hau1 & Hm1 & Hid1 & Hc1 & Ha1 & Hnd1 & Hall1 & Hin1 & Hold1).
    assert (Hcalc : calculate_hash sha256 tx1 = calculate_hash sha256 tx)
      by (unfold calculate_hash; rewrite Hdat1; reflexivity).
    destruct (IH tx1) as (tx2 & Hd2 & Hdat2 & Hau2 & Hm2 & Hid2 & Hc2 & Ha2 & Hnd2 & Hall2 & Hin2 & Hold2).
    + rewrite Hau1. exact Hauth.
    + exact Hc1.
    + exact Ha1.
    + rewrite Hm1. exact Hm.
    + rewrite Hid1, Hcalc. exact Hid.
    + intros k' Hk'. rewrite Hau1. apply Hks. apply elem_of_cons. right. exact Hk'.
    + exact Hnd1.
    + rewrite Hau1, Hdat1. exact Hall1.
    + exists tx2. cbn [multisig_sign_sessions fold_left]. unfold multisig_sign_sessions in Hd2.
      rewrite Hd1, Hd2.
      rewrite Hdat2, Hau2, Hm2, Hid2, Hdat1, Hau1, Hm1, Hid1 in *.
      do 8 (split; [assumption || reflexivity|]). split; [exact Hall2|]. split.
      * intros k' Hk'. apply elem_of_cons in Hk'. destruct Hk' as [->|Hk'].
        -- apply Hold2. exact Hin1.
        -- apply Hin2. exact Hk'.
      * intros x Hx. apply Hold2, Hold1, Hx.
Qed.

(** The multi-signature workflow of main.py: a transaction made by
    [initiate-tx] from a config with threshold [m] does not verify yet; after
    [sign-tx] sessions by at least [m] distinct authorized keys whose
    signatures verify, the file reads back as a transaction that
    [verify_signatures_python] accepts, with the id and hashed data of the
    initiated one. *)
Theorem multisig_workflow_verifies (now_ns : Z) (c : MultisigConfig.t) (to_address_hex0 : string)
    (amount0 fee0 : Z) (tx0 : Transaction) (ks : list SigningKey) (keys : list string) (m : Z) :
  multisig_initiate_tx sha256 now_ns (Some c) to_address_hex0 amount0 fee0 = inr tx0 ->
  MultisigConfig.authorized_public_keys_hex c = Some keys ->
  MultisigConfig.m_required c = Some m ->
  (forall k, k ∈ ks -> key_public_hex k ∈ keys) ->
  (forall k d, k ∈ ks -> ecdsa_verify (key_public_hex k) (bytes_hex (ecdsa_sign k d)) d = true) ->
  NoDup (map key_public_hex ks) ->
  m <= Z.of_nat (length ks) ->
  verify_signatures_python sha256 ecdsa_verify tx0 = Some false /\
  exists tx,
    from_dict_for_file now_ns
      (multisig_sign_sessions sha256 SigningKey key_public_hex ecdsa_sign now_ns ks
         (to_dict_for_file tx0)) = Some tx /\
    verify_signatures_python sha256 ecdsa_verify tx = Some true /\
    id_hex tx = id_hex tx0 /\ data_for_hashing tx = data_for_hashing tx0.
Proof.
  intros Hinit Hkeys Hmr Hin Hok Hnd Hlen.
  unfold multisig_initiate_tx, load_multisig_config in Hinit.
  destruct c as [[m'|] [keys'|] [addr|] [n|]]; cbn in Hkeys, Hmr, Hinit; try discriminate.
  injection Hkeys as ->. injection Hmr as ->.
  destruct ((m <=? 0) || (n <? m)) eqn:Emn; [discriminate|].
  apply orb_false_iff in Emn. destruct Emn as [Em0 Enm].
  apply Z.leb_gt in Em0. apply Z.ltb_ge in Enm.
  destruct (Z.eqb_spec (Z.of_nat (length keys)) n) as [Hn|]; [|discriminate]. cbn in Hinit.
  destruct (derive_multisig_address sha256 m keys); [discriminate|].
  destruct (String.eqb _ _); [|discriminate]. cbn in Hinit. injection Hinit as <-.
  set (t := Transaction_init now_ns addr None (Some to_address_hex0) amount0 fee0 None None None
              None None None m (Some keys) (Some []) TX_STANDARD None).
  set (tx0 := set_id_hex (Some (calculate_hash sha256 t)) t).
  assert (Hauth0 : forall x, x ∈ authorized_public_keys_hex tx0 <-> x ∈ keys)
    by (intros x; apply init_auth_elem).
  assert (Hcan : py_sorted (py_set_list (authorized_public_keys_hex tx0)) =
                 authorized_public_keys_hex tx0) by apply (init_auth_canonical (Some keys)).
  assert (Hm0 : required_signatures tx0 = m) by reflexivity.
  assert (Hs0 : signers tx0 = []) by reflexivity.
  split.
  { rewrite (verify_group_eq sha256 ecdsa_verify tx0) by lia. rewrite Hs0, Hm0.
    cbn [length]. destruct (Z.ltb_spec (Z.of_nat 0) m); [reflexivity|lia]. }
  destruct (multisig_sign_sessions_inv now_ns ks tx0)
    as (tx & Hd & Hdat & Hau & Hm & Hid & Hc & Ha & Hndx & Hall & Hsig & _).
  - exact Hcan.
  - reflexivity.
  - reflexivity.
  - rewrite Hm0. lia.
  - reflexivity.
  - intros k Hk. split; [apply Hauth0, Hin, Hk|]. intros d. apply Hok, Hk.
  - rewrite Hs0. constructor.
  - rewrite Hs0. constructor.
  - exists tx. rewrite Hd.
    split; [apply file_roundtrip_canonical; [rewrite Hau; exact Hcan|exact Hc|exact Ha]|].
    split; [|split; assumption].
    assert (Hge : (length ks <= length (signers tx))%nat).
    { rewrite <- (length_map key_public_hex ks).
      change (length (signers tx)) with (length (signers tx)).
      rewrite <- (length_map SignerInfo.public_key_hex (signers tx)).
      apply submseteq_length, NoDup_submseteq; [exact Hnd|].
      intros x Hx. apply list_elem_of_fmap in Hx. destruct Hx as (k & -> & Hk).
      apply Hsig, Hk. }
    rewrite (verify_group_eq sha256 ecdsa_verify tx) by (rewrite Hm, Hm0; lia).
    rewrite Hm, Hm0.
    replace (Z.of_nat (length (signers tx)) <? m) with false by (symmetry; apply Z.ltb_ge; lia).
    rewrite (verify_group_loop_ok ecdsa_verify).
    + replace (m <=? 0 + Z.of_nat (length (signers tx))) with true
        by (symmetry; apply Z.leb_le; lia). reflexivity.
    + exact Hndx.
    + rewrite Hau, Hdat. eapply Forall_impl; [exact Hall|].
      intros si [Hs1 Hs2]. split; [exact Hs1|]. split; [exact Hs2|]. apply not_elem_of_nil.
Qed.

End Extras.

(* ================================================================== *)
(** ** Instances of the further properties

    The primitives are instantiated with the identity as hash, public keys
    equal to the key names, and a signature scheme that prefixes the digest
    with one byte, checked by recomputing it. *)

Lemma calculate_hash_covered_fields_witness :
  let tx := Transaction_init 7 "ab" None (Some "cd") 5 1 (Some [Byte.x01]) None None None
              (Some "pk") None 0 (Some ["k2"; "k1"]) None TX_CONTRACT_DEPLOY None in
  let tx' := Transaction_init 9 "ab" (Some 7) (Some "ef") 5 1 (Some [Byte.x01]) (Some "t")
               None None (Some "pk") (Some "sig") 0 (Some ["k1"; "k2"; "k1"])
               (Some [SignerInfo.mk "k1" "s"]) TX_CONTRACT_DEPLOY (Some "id") in
  covered_fields_agree tx tx' /\
  calculate_hash (fun b => b) tx = calculate_hash (fun b => b) tx'.
Proof.
  intros tx tx'.
  assert (H : covered_fields_agree tx tx').
  { cbv [covered_fields_agree]. vm_compute.
    repeat split; try reflexivity; intros Hk; exact Hk. }
  split; [exact H|]. apply (calculate_hash_covered_fields (fun b => b) tx tx' H).
Defined.

Lemma sign_single_then_verify_witness :
  let tx := Transaction_init 7 "ab" None (Some "cd") 5 1 None None None None None None 0
              None None TX_STANDARD None in
  let sign := fun (_ : string) (d : bytes) => Byte.x01 :: d in
  let ver := fun (_ sg : string) (d : bytes) => String.eqb sg (bytes_hex (Byte.x01 :: d)) in
  (0 < required_signatures tx ->
   sign_single (fun b => b) string (fun k => k) sign "pk" tx = (tx, inl UseAddSignature)) /\
  (required_signatures tx <= 0 -> exists tx',
     sign_single (fun b => b) string (fun k => k) sign "pk" tx = (tx', inr true) /\
     from_address_hex tx' = "pk" /\ public_key_hex tx' = Some "pk" /\
     id_hex tx' = Some (calculate_hash (fun b => b) tx') /\
     verify_signatures_python (fun b => b) ver tx' = Some true).
Proof.
  intros tx sign ver.
  apply (sign_single_then_verify (fun b => b) string (fun k => k) sign ver "pk" tx).
  - discriminate.
  - intros d. discriminate.
  - intros d. apply String.eqb_refl.
Defined.

Lemma create_multisig_config_ok_witness :
  let ws := [Some "0422222222222222222222222222222222222222222222222222222222222222222222222222222222222222222222222222222222222222222222222222222222"; Some "0411111111111111111111111111111111111111111111111111111111111111111111111111111111111111111111111111111111111111111111111111111111"] in
  let c := match create_multisig_config (fun b => b) 2 ws 2 with
           | inr c => c | inl _ => MultisigConfig.mk None None None None end in
  create_multisig_config (fun b => b) 2 ws 2 = inr c /\
  exists pubs addr,
    ws = map Some pubs /\ length ws = 2%nat /\
    c = MultisigConfig.mk (Some 2) (Some (py_sorted pubs)) (Some addr)
          (Some (Z.of_nat (length pubs))) /\
    1 <= 2 <= 255 /\ 2 <= Z.of_nat (length pubs) /\ NoDup pubs /\
    Forall key_wellformed pubs /\ derive_multisig_address (fun b => b) 2 pubs = inr addr.
Proof.
  intros ws c.
  assert (H : create_multisig_config (fun b => b) 2 ws 2 = inr c) by (vm_compute; reflexivity).
  split; [exact H|]. exact (create_multisig_config_ok (fun b => b) 2 ws 2 c H).
Defined.

Lemma create_then_load_witness :
  let ws := [Some "0422222222222222222222222222222222222222222222222222222222222222222222222222222222222222222222222222222222222222222222222222222222"; Some "0411111111111111111111111111111111111111111111111111111111111111111111111111111111111111111111111111111111111111111111111111111111"] in
  let c := match create_multisig_config (fun b => b) 2 ws 2 with
           | inr c => c | inl _ => MultisigConfig.mk None None None None end in
  create_multisig_config (fun b => b) 2 ws 2 = inr c /\
  load_multisig_config (fun b => b) (Some c) = inr c.
Proof.
  intros ws c.
  assert (H : create_multisig_config (fun b => b) 2 ws 2 = inr c) by (vm_compute; reflexivity).
  split; [exact H|]. exact (create_then_load (fun b => b) 2 ws 2 c H).
Defined.

Lemma load_multisig_config_ok_witness :
  let c := match create_multisig_config (fun b => b) 2 [Some "0422222222222222222222222222222222222222222222222222222222222222222222222222222222222222222222222222222222222222222222222222222222"; Some "0411111111111111111111111111111111111111111111111111111111111111111111111111111111111111111111111111111111111111111111111111111111"] 2 with
           | inr c => c | inl _ => MultisigConfig.mk None None None None end in
  load_multisig_config (fun b => b) (Some c) = inr c /\
  Some c = Some c /\
  exists m keys addr n,
    c = MultisigConfig.mk (Some m) (Some keys) (Some addr) (Some n) /\
    1 <= m <= 255 /\ m <= n /\ n = Z.of_nat (length keys) /\ NoDup keys /\
    Forall key_wellformed keys /\ derive_multisig_address (fun b => b) m keys = inr addr.
Proof.
  intros c.
  assert (H : load_multisig_config (fun b => b) (Some c) = inr c) by (vm_compute; reflexivity).
  split; [exact H|]. exact (load_multisig_config_ok (fun b => b) (Some c) c H).
Defined.

Lemma load_multisig_config_key_order_witness :
  let c := match create_multisig_config (fun b => b) 2 [Some "0422222222222222222222222222222222222222222222222222222222222222222222222222222222222222222222222222222222222222222222222222222222"; Some "0411111111111111111111111111111111111111111111111111111111111111111111111111111111111111111111111111111111111111111111111111111111"] 2 with
           | inr c => c | inl _ => MultisigConfig.mk None None None None end in
  let m := MultisigConfig.m_required c in
  let addr := MultisigConfig.multisig_address_hex c in
  let n := MultisigConfig.n_total_keys c in
  ["0411111111111111111111111111111111111111111111111111111111111111111111111111111111111111111111111111111111111111111111111111111111"; "0422222222222222222222222222222222222222222222222222222222222222222222222222222222222222222222222222222222222222222222222222222222"] ≡ₚ ["0422222222222222222222222222222222222222222222222222222222222222222222222222222222222222222222222222222222222222222222222222222222"; "0411111111111111111111111111111111111111111111111111111111111111111111111111111111111111111111111111111111111111111111111111111111"] /\
  load_multisig_config (fun b => b) (Some (MultisigConfig.mk m (Some ["0411111111111111111111111111111111111111111111111111111111111111111111111111111111111111111111111111111111111111111111111111111111"; "0422222222222222222222222222222222222222222222222222222222222222222222222222222222222222222222222222222222222222222222222222222222"]) addr n)) =
    inr (MultisigConfig.mk m (Some ["0411111111111111111111111111111111111111111111111111111111111111111111111111111111111111111111111111111111111111111111111111111111"; "0422222222222222222222222222222222222222222222222222222222222222222222222222222222222222222222222222222222222222222222222222222222"]) addr n) /\
  load_multisig_config (fun b => b) (Some (MultisigConfig.mk m (Some ["0422222222222222222222222222222222222222222222222222222222222222222222222222222222222222222222222222222222222222222222222222222222"; "0411111111111111111111111111111111111111111111111111111111111111111111111111111111111111111111111111111111111111111111111111111111"]) addr n)) =
    inr (MultisigConfig.mk m (Some ["0422222222222222222222222222222222222222222222222222222222222222222222222222222222222222222222222222222222222222222222222222222222"; "0411111111111111111111111111111111111111111111111111111111111111111111111111111111111111111111111111111111111111111111111111111111"]) addr n).
Proof.
  intros c m addr n.
  assert (Hp : ["0411111111111111111111111111111111111111111111111111111111111111111111111111111111111111111111111111111111111111111111111111111111"; "0422222222222222222222222222222222222222222222222222222222222222222222222222222222222222222222222222222222222222222222222222222222"] ≡ₚ ["0422222222222222222222222222222222222222222222222222222222222222222222222222222222222222222222222222222222222222222222222222222222"; "0411111111111111111111111111111111111111111111111111111111111111111111111111111111111111111111111111111111111111111111111111111111"]) by apply Permutation_swap.
  assert (H : load_multisig_config (fun b => b) (Some (MultisigConfig.mk m (Some ["0411111111111111111111111111111111111111111111111111111111111111111111111111111111111111111111111111111111111111111111111111111111"; "0422222222222222222222222222222222222222222222222222222222222222222222222222222222222222222222222222222222222222222222222222222222"]) addr n)) =
              inr (MultisigConfig.mk m (Some ["0411111111111111111111111111111111111111111111111111111111111111111111111111111111111111111111111111111111111111111111111111111111"; "0422222222222222222222222222222222222222222222222222222222222222222222222222222222222222222222222222222222222222222222222222222222"]) addr n)) by (vm_compute; reflexivity).
  split; [exact Hp|]. split; [exact H|].
  exact (load_multisig_config_key_order (fun b => b) m n ["0411111111111111111111111111111111111111111111111111111111111111111111111111111111111111111111111111111111111111111111111111111111"; "0422222222222222222222222222222222222222222222222222222222222222222222222222222222222222222222222222222222222222222222222222222222"] ["0422222222222222222222222222222222222222222222222222222222222222222222222222222222222222222222222222222222222222222222222222222222"; "0411111111111111111111111111111111111111111111111111111111111111111111111111111111111111111111111111111111111111111111111111111111"] addr Hp H).
Defined.

Lemma file_roundtrip_drops_empty_code_witness :
  let tx := Transaction_init 7 "ab" None None 0 1 (Some []) None None None None None 0
              None None TX_CONTRACT_DEPLOY None in
  tx_type tx = TX_CONTRACT_DEPLOY /\ contract_code_bytes tx = Some [] /\
  exists tx', from_dict_for_file 7 (to_dict_for_file tx) = Some tx' /\
    contract_code_bytes tx' = None /\ data_for_hashing tx' <> data_for_hashing tx.
Proof.
  intros tx.
  assert (H1 : tx_type tx = TX_CONTRACT_DEPLOY) by reflexivity.
  assert (H2 : contract_code_bytes tx = Some []) by reflexivity.
  split; [exact H1|]. split; [exact H2|].
  exact (file_roundtrip_drops_empty_code 7 tx H1 H2).
Defined.

Lemma multisig_workflow_verifies_witness :
  let sign := fun (_ : string) (d : bytes) => Byte.x01 :: d in
  let ver := fun (_ sg : string) (d : bytes) => String.eqb sg (bytes_hex (Byte.x01 :: d)) in
  let c := match create_multisig_config (fun b => b) 2 [Some "0422222222222222222222222222222222222222222222222222222222222222222222222222222222222222222222222222222222222222222222222222222222"; Some "0411111111111111111111111111111111111111111111111111111111111111111111111111111111111111111111111111111111111111111111111111111111"] 2 with
           | inr c => c | inl _ => MultisigConfig.mk None None None None end in
  let tx0 := match multisig_initiate_tx (fun b => b) 7 (Some c) "cd" 5 1 with
             | inr t => t
             | inl _ => Transaction_init 0 "" None None 0 0 None None None None None None 0
                          None None TX_STANDARD None end in
  multisig_initiate_tx (fun b => b) 7 (Some c) "cd" 5 1 = inr tx0 /\
  verify_signatures_python (fun b => b) ver tx0 = Some false /\
  exists tx,
    from_dict_for_file 7
      (multisig_sign_sessions (fun b => b) string (fun k => k) sign 7 ["0411111111111111111111111111111111111111111111111111111111111111111111111111111111111111111111111111111111111111111111111111111111"; "0422222222222222222222222222222222222222222222222222222222222222222222222222222222222222222222222222222222222222222222222222222222"]
         (to_dict_for_file tx0)) = Some tx /\
    verify_signatures_python (fun b => b) ver tx = Some true /\
    id_hex tx = id_hex tx0 /\ data_for_hashing tx = data_for_hashing tx0.
Proof.
  intros sign ver c tx0.
  assert (H1 : multisig_initiate_tx (fun b => b) 7 (Some c) "cd" 5 1 = inr tx0)
    by (vm_compute; reflexivity).
  split; [exact H1|].
  apply (multisig_workflow_verifies (fun b => b) string (fun k => k) sign ver 7 c "cd" 5 1 tx0
           ["0411111111111111111111111111111111111111111111111111111111111111111111111111111111111111111111111111111111111111111111111111111111"; "0422222222222222222222222222222222222222222222222222222222222222222222222222222222222222222222222222222222222222222222222222222222"] ["0411111111111111111111111111111111111111111111111111111111111111111111111111111111111111111111111111111111111111111111111111111111"; "0422222222222222222222222222222222222222222222222222222222222222222222222222222222222222222222222222222222222222222222222222222222"] 2 H1).
  - vm_compute. reflexivity.
  - vm_compute. reflexivity.
  - intros k Hk. apply elem_of_cons in Hk. destruct Hk as [->|Hk].
    + apply elem_of_cons. left. reflexivity.
    + apply elem_of_cons in Hk. destruct Hk as [->|Hk].
      * apply elem_of_cons. right. apply elem_of_cons. left. reflexivity.
      * apply not_elem_of_nil in Hk. contradiction.
  - intros k d _. apply String.eqb_refl.
  - apply (bool_decide_unpack _). vm_compute. exact I.
  - vm_compute. discriminate.
Defined.
